(** * build_pipeline.ipynb: the two-step (data-prep, train) pipeline notebook

    The Python cells of [pipeline/build_pipeline.ipynb] are embedded as a
    program in a small state/exception/log monad.  Every call into the
    vendor SDK is an explicit [Call]; what the platform answers is a
    parameter [sem] of the development, so that the theorems speak about
    the order and the arguments of the calls the notebook makes and about
    the one place where it catches an exception.  The constructors that
    only build a descriptor on the client ([RunConfiguration()],
    [PipelineData], [PipelineParameter], [PythonScriptStep], [Pipeline],
    [ScheduleRecurrence]) are plain functions.  The two dataset methods
    [as_named_input] and [as_mount] are SDK calls like the others: the SDK
    checks the name it is given and may raise.
    The first cell, a shell script that converts the two notebooks to
    scripts and formats and lints them, makes no SDK call and binds no
    Python name; it is embedded on its own ([convert_script], run by
    [bash_cell], with the shell options and the startup file the inherited
    environment asks for), and [run_all] runs it before the Python cells
    of [notebook_with].

    The platform's pipeline graph, its validation and its reading of a
    recurrence are not in the notebook; they are modelled from the
    specification and marked as such.  A concrete platform ([Registry])
    built on finite maps is given at the end of the definitions and is used
    to run the notebook on concrete inputs. *)

From Stdlib Require Import ZArith QArith_base List Lia Bool Ascii.
From stdpp Require Import base strings gmap list.

Open Scope string_scope.
Open Scope list_scope.
Open Scope Z_scope.

(** ** Exceptions *)

(** The exception classes that occur in the notebook and in its description.
    [PlatformError cls] stands for any other exception class the SDK
    raises. *)
Inductive Exn : Type :=
| ComputeTargetException
| ConfigurationError
| ProvisioningTimeout
| PlatformError (cls : string).

(** [except ComputeTargetException:] *)
Definition is_ComputeTargetException (e : Exn) : bool :=
  match e with
  | ComputeTargetException => true
  | _ => false
  end.

(** ** Resource handles and descriptors *)

Record Workspace : Type := { ws_name : string }.

(** [AmlCompute.provisioning_configuration(vm_size=, idle_seconds_before_scaledown=,
    min_nodes=, max_nodes=)] *)
Record ProvisioningConfiguration : Type := {
  vm_size : string;
  idle_seconds_before_scaledown : Z;
  min_nodes : Z;
  max_nodes : Z
}.

Record AmlCompute : Type := {
  ct_name : string;
  ct_sizing : ProvisioningConfiguration
}.

Record Environment : Type := {
  env_name : string;
  env_file_path : string
}.

(** [RunConfiguration()] starts without an environment; the notebook then
    assigns [run_config.environment = my_env]. *)
Record RunConfiguration : Type := { environment : option Environment }.

Definition RunConfiguration_new : RunConfiguration := {| environment := None |}.

Definition set_environment (rc : RunConfiguration) (env : Environment)
  : RunConfiguration :=
  {| environment := Some env |}.

(** The class of the object [Dataset.get_by_name] returns, as the two
    [isinstance] tests of the notebook see it. *)
Inductive DatasetClass : Type := FileDataset | TabularDataset | OtherDataset.

Record Dataset : Type := {
  ds_class : DatasetClass;
  ds_name : string
}.

Record Datastore : Type := { dstore_name : string }.

Record PipelineData : Type := {
  pd_name : string;
  pd_datastore : Datastore
}.

(** What [ds.as_named_input(name)] and, after it, [.as_mount()] return: a
    dataset under the name it is bound with, mounted or not.  The name is
    the one the SDK settled on, which need not be the one it was given. *)
Record DatasetConsumptionConfig : Type := {
  dcc_name : string;
  dcc_dataset : Dataset;
  dcc_mounted : bool
}.

Record PipelineParameter : Type := {
  pp_name : string;
  pp_default_value : Q
}.

(** An element of a step's [inputs] list: a dataset binding or a data slot. *)
Inductive StepInput : Type :=
| InputDataset (c : DatasetConsumptionConfig)
| InputSlot (d : PipelineData).

(** An element of a step's [arguments] list. *)
Inductive Argument : Type :=
| ArgStr (s : string)
| ArgData (d : PipelineData)
| ArgParam (p : PipelineParameter).

(** [PythonScriptStep(script_name=, name=, arguments=, compute_target=,
    runconfig=, inputs=, outputs=, source_directory=)]; [inputs] may be
    [None]. *)
Record PythonScriptStep : Type := {
  script_name : string;
  step_name : string;
  arguments : list Argument;
  compute_target : AmlCompute;
  runconfig : RunConfiguration;
  inputs : option (list StepInput);
  outputs : list PipelineData;
  source_directory : string
}.

Record Pipeline : Type := {
  pl_workspace : Workspace;
  pl_steps : list PythonScriptStep;
  pl_description : string
}.

Record PipelineRun : Type := { run_id : string }.

Record PublishedPipeline : Type := { published_id : string }.

(** [ScheduleRecurrence(frequency=, interval=, hours=, minutes=)] *)
Record ScheduleRecurrence : Type := {
  frequency : string;
  interval : Z;
  hours : list Z;
  minutes : list Z
}.

(** The keyword arguments of [Schedule.create].  A keyword the call site does
    not write is [None]. *)
Record ScheduleCreateArgs : Type := {
  sc_workspace : Workspace;
  sc_name : string;
  sc_pipeline_id : string;
  sc_experiment_name : string;
  sc_recurrence : option ScheduleRecurrence;
  sc_datastore : option Datastore;
  sc_polling_interval : option Z;
  sc_path_on_datastore : option string;
  sc_wait_for_provisioning : option bool;
  sc_description : option string
}.

Record Schedule : Type := { schedule_id : string }.

(** ** SDK calls *)

Inductive Call : Type :=
| Workspace_from_config
| AmlCompute_lookup (ws : Workspace) (name : string)
| ComputeTarget_create (ws : Workspace) (name : string)
    (provisioning_configuration : ProvisioningConfiguration)
| wait_for_completion (target : AmlCompute) (show_output : bool)
    (min_node_count : option Z) (timeout_in_minutes : Z)
| Environment_from_conda_specification (name file_path : string)
| Dataset_get_by_name (ws : Workspace) (name : string)
| Datastore_lookup (ws : Workspace) (name : string)
| as_named_input (ds : Dataset) (name : string)
| as_mount (c : DatasetConsumptionConfig)
| Pipeline_validate (p : Pipeline)
| Pipeline_submit (p : Pipeline) (experiment_name : string)
    (regenerate_outputs : bool)
| Pipeline_publish (p : Pipeline)
| Schedule_create (args : ScheduleCreateArgs).

(** What a call returns when it does not raise. *)
Definition Resp (c : Call) : Type :=
  match c with
  | Workspace_from_config => Workspace
  | AmlCompute_lookup _ _ => AmlCompute
  | ComputeTarget_create _ _ _ => AmlCompute
  | wait_for_completion _ _ _ _ => unit
  | Environment_from_conda_specification _ _ => Environment
  | Dataset_get_by_name _ _ => Dataset
  | Datastore_lookup _ _ => Datastore
  | as_named_input _ _ => DatasetConsumptionConfig
  | as_mount _ => DatasetConsumptionConfig
  | Pipeline_validate _ => unit
  | Pipeline_submit _ _ _ => PipelineRun
  | Pipeline_publish _ => PublishedPipeline
  | Schedule_create _ => Schedule
  end.

(** What a run leaves behind, in order: the SDK calls with the exception
    each one raised, if any, and the lines printed. *)
Inductive Event : Type :=
| Called (c : Call) (raised : option Exn)
| Printed (line : string).

(** ** The monad of the notebook *)

Module Nb.

Section Monad.
Context {St : Type}.
(** The platform: the answer to each call and the state it leaves. *)
Variable sem : forall c : Call, St -> (Exn + Resp c) * St.

Definition M (A : Type) : Type := St -> (Exn + A) * St * list Event.

Definition ret {A} (a : A) : M A := fun s => (inr a, s, []).

Definition bind {A B} (m : M A) (f : A -> M B) : M B :=
  fun s =>
    match m s with
    | (inl e, s1, l1) => (inl e, s1, l1)
    | (inr a, s1, l1) =>
        match f a s1 with
        | (r, s2, l2) => (r, s2, l1 ++ l2)
        end
    end.

Definition call (c : Call) : M (Resp c) :=
  fun s =>
    match sem c s with
    | (inl e, s1) => (inl e, s1, [Called c (Some e)])
    | (inr v, s1) => (inr v, s1, [Called c None])
    end.

Definition print (line : string) : M unit :=
  fun s => (inr tt, s, [Printed line]).

(** [try: body  except <class>: handler] *)
Definition try_except {A} (body : M A) (catches : Exn -> bool)
    (handler : M A) : M A :=
  fun s =>
    match body s with
    | (inl e, s1, l1) =>
        if catches e then
          match handler s1 with
          | (r, s2, l2) => (r, s2, l1 ++ l2)
          end
        else (inl e, s1, l1)
    | (inr a, s1, l1) => (inr a, s1, l1)
    end.

End Monad.

End Nb.

Notation "x <- m ;; k" := (Nb.bind m (fun x => k))
  (at level 100, m at next level, right associativity).
Notation "m ;;; k" := (Nb.bind m (fun _ => k))
  (at level 100, right associativity).

(** ** The notebook *)

(** *** Values the cells bind that depend on no call *)

Definition aml_compute_target : string := "cpu-cluster".

Definition provisioning_config : ProvisioningConfiguration :=
  {| vm_size := "STANDARD_D2_V2";
     idle_seconds_before_scaledown := 1200;
     min_nodes := 0;
     max_nodes := 4 |}.

Definition DATASET_NAME : string := "".
Definition DATASTORE_NAME : string := "".

(** [training_data = PipelineData(name='training_data', datastore=datastore)] *)
Definition training_data (datastore : Datastore) : PipelineData :=
  {| pd_name := "training_data"; pd_datastore := datastore |}.

(** [data_prep_step = PythonScriptStep(..)], with the value of [my_inputs]
    at that point of the cell. *)
Definition data_prep_step (input_dataset : Dataset)
    (my_inputs : option (list StepInput)) (training_data : PipelineData)
    (aml_compute : AmlCompute) (run_config : RunConfiguration)
  : PythonScriptStep :=
  {| script_name := "data_prep.py";
     step_name := "data_prep_step";
     arguments := [ArgStr "--input_dataset"; ArgStr (ds_name input_dataset);
                   ArgStr "--output_folder"; ArgData training_data];
     compute_target := aml_compute;
     runconfig := run_config;
     inputs := my_inputs;
     outputs := [training_data];
     source_directory := "scripts/01-data-prep" |}.

(** [param1 = PipelineParameter('param1', 1.0)] *)
Definition param1 : PipelineParameter :=
  {| pp_name := "param1"; pp_default_value := Qmake 1 1 |}.

Definition train_step (training_data : PipelineData)
    (aml_compute : AmlCompute) (run_config : RunConfiguration)
  : PythonScriptStep :=
  {| script_name := "train.py";
     step_name := "training_step";
     arguments := [ArgStr "--training_data"; ArgData training_data;
                   ArgStr "--param1"; ArgParam param1];
     compute_target := aml_compute;
     runconfig := run_config;
     inputs := Some [InputSlot training_data];
     outputs := [];
     source_directory := "scripts/02-train" |}.

Definition pipeline (ws : Workspace) (data_prep_step train_step : PythonScriptStep)
  : Pipeline :=
  {| pl_workspace := ws;
     pl_steps := [data_prep_step; train_step];
     pl_description := "a 2-step data prep and training pipeline" |}.

(** [recurrence = ScheduleRecurrence(frequency="Day", interval=2, hours=[22],
    minutes=[30])] *)
Definition recurrence : ScheduleRecurrence :=
  {| frequency := "Day"; interval := 2; hours := [22]; minutes := [30] |}.

(** The keyword arguments of the [Schedule.create] of option 1. *)
Definition recurrence_schedule_args (ws : Workspace)
    (published_pipeline : PublishedPipeline) : ScheduleCreateArgs :=
  {| sc_workspace := ws;
     sc_name := "My_Schedule";
     sc_pipeline_id := published_id published_pipeline;
     sc_experiment_name := "Schedule_Run";
     sc_recurrence := Some recurrence;
     sc_datastore := None;
     sc_polling_interval := None;
     sc_path_on_datastore := None;
     sc_wait_for_provisioning := Some true;
     sc_description := Some "Schedule Run" |}.

(** The keyword arguments of the [Schedule.create] of option 2. *)
Definition datastore_schedule_args (ws : Workspace)
    (published_pipeline : PublishedPipeline) (datastore : Datastore)
  : ScheduleCreateArgs :=
  {| sc_workspace := ws;
     sc_name := "My_Schedule";
     sc_pipeline_id := published_id published_pipeline;
     sc_experiment_name := "Schedule_Run";
     sc_recurrence := None;
     sc_datastore := Some datastore;
     sc_polling_interval := None;
     sc_path_on_datastore := None;
     sc_wait_for_provisioning := Some true;
     sc_description := Some "Schedule Run" |}.

(** The names the notebook has bound when its last cell has run. *)
Record Globals : Type := {
  g_ws : Workspace;
  g_aml_compute : AmlCompute;
  g_run_config : RunConfiguration;
  g_input_dataset : Dataset;
  g_my_inputs : option (list StepInput);
  g_datastore : Datastore;
  g_training_data : PipelineData;
  g_data_prep_step : PythonScriptStep;
  g_train_step : PythonScriptStep;
  g_pipeline : Pipeline;
  g_published_pipeline : PublishedPipeline;
  g_schedule : Schedule
}.

(** *** The cells *)

Section Notebook.
Context {St : Type}.
Variable sem : forall c : Call, St -> (Exn + Resp c) * St.

Local Abbreviation M := (@Nb.M St).
Local Abbreviation call := (Nb.call sem).

(** Cell "Create compute and environment for pipeline", with the name of
    the target as its parameter. *)
Definition compute_cell (ws : Workspace) (aml_compute_target : string)
  : M AmlCompute :=
  aml_compute <-
    Nb.try_except
      (aml_compute <- call (AmlCompute_lookup ws aml_compute_target);;
       Nb.print "found existing compute target.";;;
       Nb.ret aml_compute)
      is_ComputeTargetException
      (Nb.print "creating new compute target";;;
       aml_compute <-
         call (ComputeTarget_create ws aml_compute_target provisioning_config);;
       call (wait_for_completion aml_compute true None 20);;;
       Nb.ret aml_compute);;
  Nb.print "Azure Machine Learning Compute attached";;;
  Nb.ret aml_compute.

(** Cell "Update conda_dependencies.yml". *)
Definition environment_cell : M RunConfiguration :=
  let run_config := RunConfiguration_new in
  my_env <- call (Environment_from_conda_specification
                    "my_pipeline" "./conda_dependencies.yml");;
  Nb.ret (set_environment run_config my_env).

(** Cell "Data prep step", first part: the dataset and the datastore. *)
Definition data_cell (ws : Workspace) (DATASET_NAME DATASTORE_NAME : string)
  : M (Dataset * Datastore * PipelineData) :=
  input_dataset <- call (Dataset_get_by_name ws DATASET_NAME);;
  datastore <- call (Datastore_lookup ws DATASTORE_NAME);;
  Nb.ret (input_dataset, datastore, training_data datastore).

(** Cell "Next, we define the step", up to the step itself:
    [my_inputs = None], then the [if isinstance .. elif isinstance ..]. *)
Definition my_inputs (input_dataset : Dataset) : M (option (list StepInput)) :=
  match ds_class input_dataset with
  | FileDataset =>
      named <- call (as_named_input input_dataset (ds_name input_dataset));;
      mounted <- call (as_mount named);;
      Nb.ret (Some [InputDataset mounted])
  | TabularDataset =>
      named <- call (as_named_input input_dataset (ds_name input_dataset));;
      Nb.ret (Some [InputDataset named])
  | OtherDataset => Nb.ret None
  end.

(** Cell "Validate, Test, Publish and Schedule the pipeline". *)
Definition validate_submit_cell (pipeline : Pipeline) : M unit :=
  call (Pipeline_validate pipeline);;;
  call (Pipeline_submit pipeline "pipeline-test" true);;;
  Nb.ret tt.

(** Cell "Option 1: Schedule on recurrence". *)
Definition recurrence_schedule_cell (ws : Workspace)
    (published_pipeline : PublishedPipeline) : M Schedule :=
  schedule <- call (Schedule_create
                      (recurrence_schedule_args ws published_pipeline));;
  Nb.print ("Created schedule with id: " +:+ schedule_id schedule);;;
  Nb.ret schedule.

(** Cell "Option 2: Schedule on datastore change". *)
Definition datastore_schedule_cell (ws : Workspace)
    (published_pipeline : PublishedPipeline) (datastore : Datastore)
  : M Schedule :=
  schedule <- call (Schedule_create
                      (datastore_schedule_args ws published_pipeline datastore));;
  Nb.print ("Created schedule with id: " +:+ schedule_id schedule);;;
  Nb.ret schedule.

(** The Python cells from top to bottom, with the two names the notebook
    asks its user to fill in as parameters. *)
Definition notebook_with (DATASET_NAME DATASTORE_NAME : string) : M Globals :=
  ws <- call Workspace_from_config;;
  aml_compute <- compute_cell ws aml_compute_target;;
  run_config <- environment_cell;;
  bound <- data_cell ws DATASET_NAME DATASTORE_NAME;;
  let '(input_dataset, datastore, training_data) := bound in
  my_inputs <- my_inputs input_dataset;;
  let data_prep_step :=
    data_prep_step input_dataset my_inputs training_data aml_compute
      run_config in
  let train_step := train_step training_data aml_compute run_config in
  let pipeline := pipeline ws data_prep_step train_step in
  validate_submit_cell pipeline;;;
  published_pipeline <- call (Pipeline_publish pipeline);;
  schedule <- recurrence_schedule_cell ws published_pipeline;;
  schedule <- datastore_schedule_cell ws published_pipeline datastore;;
  Nb.ret {| g_ws := ws;
            g_aml_compute := aml_compute;
            g_run_config := run_config;
            g_input_dataset := input_dataset;
            g_my_inputs := my_inputs;
            g_datastore := datastore;
            g_training_data := training_data;
            g_data_prep_step := data_prep_step;
            g_train_step := train_step;
            g_pipeline := pipeline;
            g_published_pipeline := published_pipeline;
            g_schedule := schedule |}.

(** The notebook as shipped. *)
Definition notebook : M Globals := notebook_with DATASET_NAME DATASTORE_NAME.

End Notebook.

(** ** The pipeline graph and its validation *)

(** The data slots among a step's inputs; [inputs=None] declares none. *)
Definition input_slots (st : PythonScriptStep) : list PipelineData :=
  match inputs st with
  | None => []
  | Some l =>
      flat_map (fun i => match i with
                         | InputSlot d => [d]
                         | InputDataset _ => []
                         end) l
  end.

(** The datasets a step binds as named inputs. *)
Definition input_datasets (st : PythonScriptStep) : list Dataset :=
  match inputs st with
  | None => []
  | Some l =>
      flat_map (fun i => match i with
                         | InputDataset c => [dcc_dataset c]
                         | InputSlot _ => []
                         end) l
  end.

(** Modelled from the spec: the graph construction of section 4.1, which the
    platform's [Pipeline] class owns and the notebook only calls.  A slot is
    identified by its name; step [a] produces slot [d] when [d]'s name is
    the name of one of [a]'s outputs. *)
Definition produces (a : PythonScriptStep) (d : PipelineData) : bool :=
  existsb (fun o => String.eqb (pd_name o) (pd_name d)) (outputs a).

(** Modelled from the spec: the edge relation of the platform's graph
    (section 4.1): there is an edge from [a] to [b] when [b] declares an
    input slot that [a] declares as an output slot. *)
Definition edge (a b : PythonScriptStep) : bool :=
  existsb (produces a) (input_slots b).

(** Modelled from the spec: the directed graph the platform builds from the
    list of steps (section 4.1), as the list of its edges. *)
Definition edges (steps : list PythonScriptStep)
  : list (PythonScriptStep * PythonScriptStep) :=
  flat_map (fun a => flat_map (fun b => if edge a b then [(a, b)] else []) steps)
           steps.

(** Modelled from the spec: the first condition under which the platform's
    validation fails (section 4.1): a declared input slot has no producing
    step. *)
Definition has_unproduced_input (steps : list PythonScriptStep) : bool :=
  existsb (fun b => existsb (fun d => negb (existsb (fun a => produces a d) steps))
                            (input_slots b))
          steps.

(** Modelled from the spec: the second condition under which the platform's
    validation fails (section 4.1): a compute target name is unset, read
    here as a step whose compute target has the empty name. *)
Definition has_unset_compute (steps : list PythonScriptStep) : bool :=
  existsb (fun st => String.eqb (ct_name (compute_target st)) "") steps.

(** Modelled from the spec: the third condition under which the platform's
    validation fails (section 4.1): a required named dataset does not
    exist.  The required datasets are those the steps bind as named inputs;
    [dataset_exists] is the platform's registry of named datasets. *)
Definition has_missing_dataset (dataset_exists : string -> bool)
    (steps : list PythonScriptStep) : bool :=
  existsb (fun st => existsb (fun ds => negb (dataset_exists (ds_name ds)))
                             (input_datasets st))
          steps.

(** Modelled from the spec: [pipeline.validate()], which the platform owns.
    It fails with [ConfigurationError] in the three cases of section 4.1 and
    succeeds otherwise. *)
Definition validate (dataset_exists : string -> bool) (p : Pipeline)
  : Exn + unit :=
  if has_unproduced_input (pl_steps p) then inl ConfigurationError
  else if has_unset_compute (pl_steps p) then inl ConfigurationError
  else if has_missing_dataset dataset_exists (pl_steps p) then inl ConfigurationError
  else inr tt.

(** ** When a recurrence fires *)

(** The frequencies a recurrence can name; the notebook writes the string
    "Day". *)
Inductive Frequency : Type := Minute | Hour | Day | Week | Month.

Definition parse_frequency (s : string) : option Frequency :=
  if String.eqb s "Minute" then Some Minute
  else if String.eqb s "Hour" then Some Hour
  else if String.eqb s "Day" then Some Day
  else if String.eqb s "Week" then Some Week
  else if String.eqb s "Month" then Some Month
  else None.

Definition mem_Z (x : Z) (l : list Z) : bool := existsb (Z.eqb x) l.

(** Modelled from the spec: the platform's evaluation of a daily recurrence
    rule (section 4.3, "frequency, interval, time-of-day").  Days are counted
    from the day the schedule starts (day 0); a rule of frequency Day and
    interval [n] selects the days whose number is a multiple of [n], and on
    a selected day it fires at every listed hour and minute.  Other
    frequencies are not used by the notebook and are left without firing
    times here. *)
Definition fires_at (r : ScheduleRecurrence) (day hour minute : Z) : bool :=
  match parse_frequency (frequency r) with
  | Some Day =>
      (0 <=? day) && (0 <? interval r) && (day mod interval r =? 0)
      && mem_Z hour (hours r) && mem_Z minute (minutes r)
  | _ => false
  end.

(** ** The trigger of a schedule *)

(** Which of the two triggers the keyword arguments of a [Schedule.create]
    populate: [recurrence=] or [datastore=] (with its companions
    [polling_interval=] and [path_on_datastore=]). *)
Inductive TriggerKind : Type :=
| RecurrenceTrigger
| StorageTrigger
| NoTrigger
| BothTriggers.

Definition populates_storage_trigger (a : ScheduleCreateArgs) : bool :=
  match sc_datastore a, sc_polling_interval a, sc_path_on_datastore a with
  | None, None, None => false
  | _, _, _ => true
  end.

Definition populates_recurrence (a : ScheduleCreateArgs) : bool :=
  match sc_recurrence a with
  | None => false
  | Some _ => true
  end.

Definition trigger_kind (a : ScheduleCreateArgs) : TriggerKind :=
  match populates_recurrence a, populates_storage_trigger a with
  | true, false => RecurrenceTrigger
  | false, true => StorageTrigger
  | false, false => NoTrigger
  | true, true => BothTriggers
  end.

(** ** A reference platform *)

(** A platform that keeps its resources in finite maps: compute targets,
    datasets and datastores by name, and the published pipelines and the
    schedules in the order they were created.  Its [Pipeline_validate] is
    [validate].  Its [as_named_input] takes a name of letters, digits and
    underscores that does not start with a digit, puts a name of its own in
    the place of an empty one and raises on any other; its [as_mount]
    mounts a file dataset and raises on any other. *)
Module Registry.

Record t : Type := {
  workspace : Workspace;
  computes : gmap string AmlCompute;
  datasets : gmap string Dataset;
  datastores : gmap string Datastore;
  published : list (string * Pipeline);
  schedules : list (string * ScheduleCreateArgs)
}.

Definition with_computes (s : t) (m : gmap string AmlCompute) : t :=
  {| workspace := workspace s; computes := m; datasets := datasets s;
     datastores := datastores s; published := published s;
     schedules := schedules s |}.

Definition with_datasets (s : t) (m : gmap string Dataset) : t :=
  {| workspace := workspace s; computes := computes s; datasets := m;
     datastores := datastores s; published := published s;
     schedules := schedules s |}.

Definition with_published (s : t) (l : list (string * Pipeline)) : t :=
  {| workspace := workspace s; computes := computes s; datasets := datasets s;
     datastores := datastores s; published := l;
     schedules := schedules s |}.

Definition with_schedules (s : t) (l : list (string * ScheduleCreateArgs)) : t :=
  {| workspace := workspace s; computes := computes s; datasets := datasets s;
     datastores := datastores s; published := published s;
     schedules := l |}.

(** Identifiers are made from a prefix and one tick per resource that
    exists already. *)
Fixpoint ticks (n : nat) : string :=
  match n with
  | O => ""
  | S n' => "'" +:+ ticks n'
  end.

Definition fresh_id (prefix : string) (n : nat) : string :=
  prefix +:+ ticks n.

(** The names [as_named_input] takes: letters, digits and underscores, not
    starting with a digit. *)
Definition is_name_start (c : ascii) : bool :=
  (("a" <=? c) && (c <=? "z") || ("A" <=? c) && (c <=? "Z") || (c =? "_"))%char.

Definition is_name_char (c : ascii) : bool :=
  is_name_start c || (("0" <=? c) && (c <=? "9"))%char.

Definition valid_input_name (name : string) : bool :=
  match name with
  | EmptyString => false
  | String c rest =>
      is_name_start c && forallb is_name_char (String.list_ascii_of_string rest)
  end.

Definition dataset_exists (s : t) (name : string) : bool :=
  match datasets s !! name with
  | Some _ => true
  | None => false
  end.

Definition sem (c : Call) : t -> (Exn + Resp c) * t :=
  match c return t -> (Exn + Resp c) * t with
  | Workspace_from_config => fun s => (inr (workspace s), s)
  | AmlCompute_lookup ws name => fun s =>
      match computes s !! name with
      | Some target => (inr target, s)
      | None => (inl ComputeTargetException, s)
      end
  | ComputeTarget_create ws name cfg => fun s =>
      let target := {| ct_name := name; ct_sizing := cfg |} in
      (inr target, with_computes s (<[name := target]> (computes s)))
  | wait_for_completion target show_output min_node_count timeout => fun s =>
      (inr tt, s)
  | Environment_from_conda_specification name file_path => fun s =>
      (inr {| env_name := name; env_file_path := file_path |}, s)
  | Dataset_get_by_name ws name => fun s =>
      match datasets s !! name with
      | Some ds => (inr ds, s)
      | None => (inl (PlatformError "UserErrorException"), s)
      end
  | Datastore_lookup ws name => fun s =>
      match datastores s !! name with
      | Some d => (inr d, s)
      | None => (inl (PlatformError "HttpOperationError"), s)
      end
  | as_named_input ds name => fun s =>
      if String.eqb name "" then
        (inr {| dcc_name := "input"; dcc_dataset := ds; dcc_mounted := false |},
         s)
      else if valid_input_name name then
        (inr {| dcc_name := name; dcc_dataset := ds; dcc_mounted := false |}, s)
      else (inl (PlatformError "UserErrorException"), s)
  | as_mount c => fun s =>
      match ds_class (dcc_dataset c) with
      | FileDataset =>
          (inr {| dcc_name := dcc_name c; dcc_dataset := dcc_dataset c;
                  dcc_mounted := true |}, s)
      | _ => (inl (PlatformError "UserErrorException"), s)
      end
  | Pipeline_validate p => fun s => (validate (dataset_exists s) p, s)
  | Pipeline_submit p experiment_name regenerate_outputs => fun s =>
      (inr {| run_id := experiment_name |}, s)
  | Pipeline_publish p => fun s =>
      let id := fresh_id "pipeline" (length (published s)) in
      (inr {| published_id := id |}, with_published s (published s ++ [(id, p)]))
  | Schedule_create args => fun s =>
      let id := fresh_id "schedule" (length (schedules s)) in
      (inr {| schedule_id := id |}, with_schedules s (schedules s ++ [(id, args)]))
  end.

(** The trigger kinds of the schedules bound to a published pipeline, in the
    order the schedules were created. *)
Definition bound_triggers (s : t) (pipeline_id : string) : list TriggerKind :=
  map (fun e => trigger_kind (snd e))
      (filter (fun e => sc_pipeline_id (snd e) = pipeline_id) (schedules s)).

(** A workspace with one file dataset and one blob datastore and no compute
    target yet. *)
Definition fresh (dataset_name datastore_name : string) : t :=
  {| workspace := {| ws_name := "ws" |};
     computes := ∅;
     datasets := {[ dataset_name := {| ds_class := FileDataset;
                                       ds_name := dataset_name |} ]};
     datastores := {[ datastore_name := {| dstore_name := datastore_name |} ]};
     published := [];
     schedules := [] |}.

End Registry.

(** ** Notions the statements use *)

(** The events of a log that ask the platform to provision a compute
    target. *)
Definition is_provisioning (ev : Event) : bool :=
  match ev with
  | Called (ComputeTarget_create _ _ _) _ => true
  | _ => false
  end.

(** A workspace handle and a starting state for the examples: one file
    dataset "titanic", one datastore "blobs", no compute target. *)
Definition ws0 : Workspace := {| ws_name := "ws" |}.
Definition registry0 : Registry.t := Registry.fresh "titanic" "blobs".

(** A workspace whose dataset "titanic" is of neither class. *)
Definition registry_legacy : Registry.t :=
  Registry.with_datasets registry0
    {[ "titanic" := {| ds_class := OtherDataset; ds_name := "titanic" |} ]}.

(** The events between the compute cell and the dispatch on the class of
    the dataset, in a run that ends without an exception. *)
Definition events_before_step (dataset_name datastore_name : string)
    (g : Globals) : list Event :=
  [Called (Environment_from_conda_specification
             "my_pipeline" "./conda_dependencies.yml") None;
   Called (Dataset_get_by_name (g_ws g) dataset_name) None;
   Called (Datastore_lookup (g_ws g) datastore_name) None].

(** The events from validation on, in a run that ends without an
    exception. *)
Definition events_after_step (g : Globals) (first_schedule : Schedule)
  : list Event :=
  [Called (Pipeline_validate (g_pipeline g)) None;
   Called (Pipeline_submit (g_pipeline g) "pipeline-test" true) None;
   Called (Pipeline_publish (g_pipeline g)) None;
   Called (Schedule_create
             (recurrence_schedule_args (g_ws g) (g_published_pipeline g))) None;
   Printed ("Created schedule with id: " +:+ schedule_id first_schedule);
   Called (Schedule_create
             (datastore_schedule_args (g_ws g) (g_published_pipeline g)
                (g_datastore g))) None;
   Printed ("Created schedule with id: " +:+ schedule_id (g_schedule g))].

(** How the names bound at the end hang together. *)
Definition globals_consistent (g : Globals) : Prop :=
  g_training_data g = training_data (g_datastore g)
  /\ g_data_prep_step g
     = data_prep_step (g_input_dataset g) (g_my_inputs g) (g_training_data g)
         (g_aml_compute g) (g_run_config g)
  /\ g_train_step g
     = train_step (g_training_data g) (g_aml_compute g) (g_run_config g)
  /\ g_pipeline g = pipeline (g_ws g) (g_data_prep_step g) (g_train_step g).




(** The [Schedule.create] calls of a log, in order, each with its keyword
    arguments and the exception it raised, if any. *)
Definition schedule_creates (l : list Event)
  : list (ScheduleCreateArgs * option Exn) :=
  flat_map (fun ev => match ev with
                      | Called (Schedule_create a) o => [(a, o)]
                      | _ => []
                      end) l.

(** The names under which a log looks up a dataset or a datastore. *)
Definition lookup_names (l : list Event) : list string :=
  flat_map (fun ev => match ev with
                      | Called (Dataset_get_by_name _ n) _ => [n]
                      | Called (Datastore_lookup _ n) _ => [n]
                      | _ => []
                      end) l.

(** The three conditions of section 4.1 as propositions. *)
Definition unproduced_input (steps : list PythonScriptStep) : Prop :=
  exists b d,
    In b steps /\ In d (input_slots b)
    /\ forall a o, In a steps -> In o (outputs a) -> pd_name o <> pd_name d.

Definition unset_compute (steps : list PythonScriptStep) : Prop :=
  exists st, In st steps /\ ct_name (compute_target st) = "".

Definition missing_dataset (dataset_exists : string -> bool)
    (steps : list PythonScriptStep) : Prop :=
  exists st ds,
    In st steps /\ In ds (input_datasets st)
    /\ dataset_exists (ds_name ds) = false.

(** The reference platform with a cluster that does not come up in time:
    [wait_for_completion] raises, every other call is the registry's. *)
Definition sem_timeout (c : Call) : Registry.t -> (Exn + Resp c) * Registry.t :=
  match c return Registry.t -> (Exn + Resp c) * Registry.t with
  | wait_for_completion target show_output min_node_count timeout =>
      fun s => (inl ProvisioningTimeout, s)
  | c' => Registry.sem c'
  end.

(** ** The conversion cell *)

(** The first cell is a [%%bash] script.  A word of the script is a sequence
    of literal text and variable references; a command is an assignment, an
    external command or [exit]. *)
Inductive Fragment : Type :=
| Lit (text : string)
| Var (name : string).

Inductive ShellCommand : Type :=
| Assign (name : string) (value : list Fragment)
| Run (words : list (list Fragment))
| Exit (status : Z).

(** Expansion of a word: an unset variable expands to the empty string.  The
    values the script assigns hold no blank, so a word stays one word. *)
Definition expand (vars : gmap string string) (w : list Fragment) : string :=
  fold_right (fun f acc =>
                match f with
                | Lit text => text +:+ acc
                | Var name => default "" (vars !! name) +:+ acc
                end) "" w.

(** The shell options that decide whether the script goes on after a
    command: [errexit] ([set -e]) ends the shell at the first command that
    fails, [noexec] ([set -n]) reads the commands without running them,
    [onecmd] ([set -t]) ends the shell after one command. *)
Record ShellOptions : Type := {
  errexit : bool;
  noexec : bool;
  onecmd : bool
}.

(** The shell as it stands between two commands: its options, its
    variables, and the names of those it passes on to the commands it
    starts. *)
Record ShellState : Type := {
  options : ShellOptions;
  vars : gmap string string;
  exported : gset string
}.

Definition with_vars (st : ShellState) (m : gmap string string) : ShellState :=
  {| options := options st; vars := m; exported := exported st |}.

(** The entries of a list written with a separator. *)
Fixpoint split_on (sep : ascii) (s : string) : list string :=
  match s with
  | EmptyString => [EmptyString]
  | String c rest =>
      if (c =? sep)%char then EmptyString :: split_on sep rest
      else match split_on sep rest with
           | [] => [String c EmptyString]
           | entry :: entries => String c entry :: entries
           end
  end.

(** A shell takes its options from the environment it inherits: every
    option named in [SHELLOPTS], a list separated by colons, is on before
    the first command is read. *)
Definition inherited_options (env : gmap string string) : ShellOptions :=
  let names := match env !! "SHELLOPTS" with
               | Some v => split_on ":" v
               | None => []
               end in
  {| errexit := existsb (String.eqb "errexit") names;
     noexec := existsb (String.eqb "noexec") names;
     onecmd := existsb (String.eqb "onecmd") names |}.

(** The variables of the inherited environment are the shell's variables at
    the start and all of them are passed on. *)
Definition initial_state (env : gmap string string) : ShellState :=
  {| options := inherited_options env; vars := env; exported := dom env |}.

(** The environment of a command the shell starts. *)
Definition child_env (st : ShellState) : gmap string string :=
  filter (fun kv => fst kv ∈ exported st) (vars st).

Section Shell.
Context {W : Type}.
(** The external commands: the exit status of an argument vector run in an
    environment, and what it leaves behind. *)
Variable exec : gmap string string -> list string -> W -> Z * W.
(** The file a non-interactive shell reads before the script when the
    inherited environment names one in [BASH_ENV]: what reading it makes of
    the shell, or the status it ends the shell with. *)
Variable source_startup : string -> ShellState -> W -> (Z + ShellState) * W.

(** The commands in order.  The result is the exit status, the world and the
    commands that ran, each with its status.  [status] is the status of the
    last command so far, which is the script's when it runs off its end.
    Without [errexit] a command that fails is followed by the next one. *)
Fixpoint run_script (cmds : list ShellCommand) (st : ShellState)
    (status : Z) (w : W) : Z * W * list (list string * Z) :=
  if noexec (options st) then (status, w, [])
  else
    match cmds with
    | [] => (status, w, [])
    | Assign name value :: rest =>
        if onecmd (options st) then (0, w, [])
        else run_script rest
               (with_vars st (<[name := expand (vars st) value]> (vars st)))
               0 w
    | Run words :: rest =>
        let argv := map (expand (vars st)) words in
        match exec (child_env st) argv w with
        | (code, w1) =>
            if (errexit (options st) && negb (code =? 0)) || onecmd (options st)
            then (code, w1, [(argv, code)])
            else
              match run_script rest st code w1 with
              | (final, w2, ran) => (final, w2, (argv, code) :: ran)
              end
        end
    | Exit n :: _ => (n, w, [])
    end.

(** The [%%bash] magic pipes the cell to [bash] and raises
    [CalledProcessError] when the exit status is not 0. *)
Definition raise_on_status (status : Z) : Exn + unit :=
  if status =? 0 then inr tt else inl (PlatformError "CalledProcessError").

Definition bash_cell (script : list ShellCommand) (env : gmap string string)
    (w : W) : (Exn + unit) * W * list (list string * Z) :=
  let st0 := initial_state env in
  if noexec (options st0) then (inr tt, w, [])
  else
    match env !! "BASH_ENV" with
    | None =>
        match run_script script st0 0 w with
        | (status, w1, ran) => (raise_on_status status, w1, ran)
        end
    | Some path =>
        match source_startup path st0 w with
        | (inl status, w1) => (raise_on_status status, w1, [])
        | (inr st1, w1) =>
            match run_script script st1 0 w1 with
            | (status, w2, ran) => (raise_on_status status, w2, ran)
            end
        end
    end.

End Shell.

(** The script of the cell "Convert notebooks to scripts". *)
Definition convert_script : list ShellCommand :=
  [Run [[Lit "pip"]; [Lit "install"]; [Lit "yapf"]];
   Assign "INPUTDIR" [Lit "../notebooks"];
   Assign "OUTPUTDIR" [Lit "scripts"];
   Run [[Lit "jupyter"]; [Lit "nbconvert"]; [Lit "--to"]; [Lit "python"];
        [Var "INPUTDIR"; Lit "/01-data-prep/data_prep.ipynb"];
        [Lit "--output-dir"]; [Var "OUTPUTDIR"; Lit "/01-data-prep"];
        [Lit "--template=ipynb_to_py.tpl"]];
   Run [[Lit "yapf"]; [Lit "-i"];
        [Var "OUTPUTDIR"; Lit "/01-data-prep/data_prep.py"]];
   Run [[Lit "pylint"]; [Lit "-E"];
        [Var "OUTPUTDIR"; Lit "/01-data-prep/data_prep.py"]];
   Run [[Lit "jupyter"]; [Lit "nbconvert"]; [Lit "--to"]; [Lit "python"];
        [Var "INPUTDIR"; Lit "/02-train/train.ipynb"];
        [Lit "--output-dir"]; [Var "OUTPUTDIR"; Lit "/02-train"];
        [Lit "--template=ipynb_to_py.tpl"]];
   Run [[Lit "yapf"]; [Lit "-i"]; [Var "OUTPUTDIR"; Lit "/02-train/train.py"]];
   Run [[Lit "pylint"]; [Lit "-E"]; [Var "OUTPUTDIR"; Lit "/02-train/train.py"]];
   Exit 0].


(** ** Notions the further statements use *)

(** The workspace a call is made against. *)
Definition call_workspaces (ev : Event) : list Workspace :=
  match ev with
  | Called (AmlCompute_lookup ws _) _ => [ws]
  | Called (ComputeTarget_create ws _ _) _ => [ws]
  | Called (Dataset_get_by_name ws _) _ => [ws]
  | Called (Datastore_lookup ws _) _ => [ws]
  | Called (Pipeline_validate p) _ => [pl_workspace p]
  | Called (Pipeline_submit p _ _) _ => [pl_workspace p]
  | Called (Pipeline_publish p) _ => [pl_workspace p]
  | Called (Schedule_create a) _ => [sc_workspace a]
  | _ => []
  end.

(** The pipelines a log validates, submits or publishes, in order. *)
Definition pipelines_of (l : list Event) : list Pipeline :=
  flat_map (fun ev => match ev with
                      | Called (Pipeline_validate p) _ => [p]
                      | Called (Pipeline_submit p _ _) _ => [p]
                      | Called (Pipeline_publish p) _ => [p]
                      | _ => []
                      end) l.

(** The pipelines of a log are one and the same, and it has the shape the
    notebook gave it. *)
Definition one_pipeline (ps : list Pipeline) : Prop :=
  match ps with
  | [] => True
  | p :: rest =>
      Forall (eq p) rest
      /\ exists ws ds ins d aml env,
          p = pipeline ws
                (data_prep_step ds ins (training_data d) aml
                   (set_environment RunConfiguration_new env))
                (train_step (training_data d) aml
                   (set_environment RunConfiguration_new env))
  end.

(** [each_after ok seen l]: every event of [l] satisfies [ok] of the events
    before it, [seen] being those before [l]. *)
Fixpoint each_after (ok : list Event -> Event -> Prop) (seen l : list Event)
  : Prop :=
  match l with
  | [] => True
  | ev :: rest => ok seen ev /\ each_after ok (seen ++ [ev]) rest
  end.

(** What has to have returned before a submit, a publish or a
    [Schedule.create]. *)
Definition gated (before : list Event) (ev : Event) : Prop :=
  match ev with
  | Called (Pipeline_submit p _ _) _ =>
      In (Called (Pipeline_validate p) None) before
  | Called (Pipeline_publish p) _ =>
      In (Called (Pipeline_validate p) None) before
      /\ In (Called (Pipeline_submit p "pipeline-test" true) None) before
  | Called (Schedule_create a) _ =>
      (exists p, In (Called (Pipeline_publish p) None) before)
      /\ (sc_recurrence a = None ->
          exists a1, In (Called (Schedule_create a1) None) before
                     /\ sc_recurrence a1 = Some recurrence
                     /\ sc_pipeline_id a1 = sc_pipeline_id a)
  | _ => True
  end.

(** * Properties *)

(** ** Running a cell step by step *)

(** Case analysis on the platform's answer to the next call of a run. *)
Ltac next_call sem :=
  match goal with
  | |- context [sem ?c ?s] =>
      let e := fresh "e" in
      let v := fresh "v" in
      let s' := fresh "s" in
      let E := fresh "E" in
      destruct (sem c s) as [[e | v] s'] eqn:E; cbn [app]
  end.

Ltac unfold_cells :=
  unfold notebook, notebook_with, compute_cell, environment_cell, data_cell,
    validate_submit_cell, recurrence_schedule_cell, datastore_schedule_cell,
    Nb.try_except, Nb.bind, Nb.call, Nb.print, Nb.ret.

Section ComputeCell.
Context {St : Type}.
Variable sem : forall c : Call, St -> (Exn + Resp c) * St.

(** The five ways the compute cell can run. *)
Lemma compute_cell_cases ws name s :
  let lookup := AmlCompute_lookup ws name in
  let create := ComputeTarget_create ws name provisioning_config in
  (exists t s1,
      sem lookup s = (inr t, s1) /\
      compute_cell sem ws name s =
        (inr t, s1, [Called lookup None;
                     Printed "found existing compute target.";
                     Printed "Azure Machine Learning Compute attached"]))
  \/ (exists e s1,
      sem lookup s = (inl e, s1) /\ e <> ComputeTargetException /\
      compute_cell sem ws name s = (inl e, s1, [Called lookup (Some e)]))
  \/ (exists s1 e s2,
      sem lookup s = (inl ComputeTargetException, s1) /\
      sem create s1 = (inl e, s2) /\
      compute_cell sem ws name s =
        (inl e, s2, [Called lookup (Some ComputeTargetException);
                     Printed "creating new compute target";
                     Called create (Some e)]))
  \/ (exists s1 t s2 e s3,
      sem lookup s = (inl ComputeTargetException, s1) /\
      sem create s1 = (inr t, s2) /\
      sem (wait_for_completion t true None 20) s2 = (inl e, s3) /\
      compute_cell sem ws name s =
        (inl e, s3, [Called lookup (Some ComputeTargetException);
                     Printed "creating new compute target";
                     Called create None;
                     Called (wait_for_completion t true None 20) (Some e)]))
  \/ (exists s1 t s2 u s3,
      sem lookup s = (inl ComputeTargetException, s1) /\
      sem create s1 = (inr t, s2) /\
      sem (wait_for_completion t true None 20) s2 = (inr u, s3) /\
      compute_cell sem ws name s =
        (inr t, s3, [Called lookup (Some ComputeTargetException);
                     Printed "creating new compute target";
                     Called create None;
                     Called (wait_for_completion t true None 20) None;
                     Printed "Azure Machine Learning Compute attached"])).
Proof.
  intros lookup create. subst lookup create. unfold_cells.
  next_call sem.
  - destruct e as [| | | cls]; cbn.
    + next_call sem.
      * right; right; left. eauto 10.
      * next_call sem.
        -- right; right; right; left. eauto 12.
        -- right; right; right; right. eauto 12.
    + right; left. do 2 eexists. repeat split; congruence.
    + right; left. do 2 eexists. repeat split; congruence.
    + right; left. do 2 eexists. repeat split; congruence.
  - left. eauto.
Qed.

(** The six ways the dispatch on the class of the dataset can run. *)
Lemma my_inputs_cases ds s :
  let named := as_named_input ds (ds_name ds) in
  (ds_class ds = FileDataset
   /\ exists e s1,
       sem named s = (inl e, s1)
       /\ my_inputs sem ds s = (inl e, s1, [Called named (Some e)]))
  \/ (ds_class ds = FileDataset
      /\ exists c s1 e s2,
          sem named s = (inr c, s1)
          /\ sem (as_mount c) s1 = (inl e, s2)
          /\ my_inputs sem ds s
             = (inl e, s2, [Called named None; Called (as_mount c) (Some e)]))
  \/ (ds_class ds = FileDataset
      /\ exists c s1 c' s2,
          sem named s = (inr c, s1)
          /\ sem (as_mount c) s1 = (inr c', s2)
          /\ my_inputs sem ds s
             = (inr (Some [InputDataset c']), s2,
                [Called named None; Called (as_mount c) None]))
  \/ (ds_class ds = TabularDataset
      /\ exists e s1,
          sem named s = (inl e, s1)
          /\ my_inputs sem ds s = (inl e, s1, [Called named (Some e)]))
  \/ (ds_class ds = TabularDataset
      /\ exists c s1,
          sem named s = (inr c, s1)
          /\ my_inputs sem ds s
             = (inr (Some [InputDataset c]), s1, [Called named None]))
  \/ (ds_class ds = OtherDataset /\ my_inputs sem ds s = (inr None, s, [])).
Proof.
  intros named. subst named.
  unfold my_inputs, Nb.bind, Nb.call, Nb.ret.
  destruct (ds_class ds).
  - next_call sem.
    + left. eauto 10.
    + next_call sem.
      * right; left. eauto 10.
      * right; right; left. eauto 10.
  - next_call sem.
    + right; right; right; left. eauto 10.
    + right; right; right; right; left. eauto 10.
  - right; right; right; right; right. eauto.
Qed.

End ComputeCell.

(** All the ways a run of the notebook can go: [tac] is left with one goal
    about the result and the log of each. *)
Ltac rest_of_paths sem tac :=
  repeat first
    [ next_call sem; [intros [= <- <- <-]; tac |]
    | match goal with
      | |- context [ds_class ?d] => destruct (ds_class d) eqn:?; cbn [app]
      end ];
  try (intros [= <- <- <-]; tac).

Ltac compute_paths sem tac :=
  match goal with
  | |- context [compute_cell sem ?ws ?n ?s] =>
      let Hc := fresh "Hc" in
      let e := fresh "e" in
      destruct (compute_cell_cases sem ws n s)
        as [(? & ? & _ & Hc)
           | [(e & ? & _ & ? & Hc)
           | [(? & ? & ? & _ & _ & Hc)
           | [(? & ? & ? & ? & ? & _ & _ & _ & Hc)
           | (? & ? & ? & ? & ? & _ & _ & _ & Hc)]]]];
      rewrite Hc; cbn [app];
      [ rest_of_paths sem tac
      | destruct e; try congruence; intros [= <- <- <-]; tac
      | intros [= <- <- <-]; tac
      | intros [= <- <- <-]; tac
      | rest_of_paths sem tac ]
  end.

Ltac notebook_paths sem tac :=
  unfold notebook, notebook_with, environment_cell, data_cell, my_inputs,
    validate_submit_cell, recurrence_schedule_cell, datastore_schedule_cell,
    Nb.bind, Nb.call, Nb.print, Nb.ret;
  match goal with
  | |- context [sem Workspace_from_config ?s] =>
      destruct (sem Workspace_from_config s) as [[? | ?] ?] eqn:?
  end;
  [ intros [= <- <- <-]; tac | compute_paths sem tac ].

(** ** Compute provisioning *)

Section Idempotence.
Context {St : Type}.
Variable sem : forall c : Call, St -> (Exn + Resp c) * St.

(** What the notebook relies on from the platform: a name that resolved
    keeps resolving to the same target, and a target that was created and
    waited for resolves under the name it was created with. *)
Hypothesis lookup_stable :
  forall ws name s t s1,
    sem (AmlCompute_lookup ws name) s = (inr t, s1) ->
    exists s2, sem (AmlCompute_lookup ws name) s1 = (inr t, s2).

Hypothesis create_registers :
  forall ws name cfg s t s1 show_output min_node_count timeout u s2,
    sem (ComputeTarget_create ws name cfg) s = (inr t, s1) ->
    sem (wait_for_completion t show_output min_node_count timeout) s1
      = (inr u, s2) ->
    exists s3, sem (AmlCompute_lookup ws name) s2 = (inr t, s3).

(** C1.  The compute cell is a lookup-or-create.  In every run the first
    event is the lookup of the name, and a provisioning call is made exactly
    when that lookup raised [ComputeTargetException].  A run that returns a
    target either found it (lookup, two prints) or created it with
    [provisioning_config] and then waited for it with a timeout of 20
    minutes before going on.  Running the cell a second time, in the state
    the first run left, returns the same target from the lookup alone, with
    no provisioning call. *)
Theorem compute_cell_lookup_or_create ws name s r s1 l :
  compute_cell sem ws name s = (r, s1, l) ->
  let lookup := AmlCompute_lookup ws name in
  let create := ComputeTarget_create ws name provisioning_config in
  let found := [Called lookup None;
                Printed "found existing compute target.";
                Printed "Azure Machine Learning Compute attached"] in
  (exists o rest,
      l = Called lookup o :: rest /\
      (existsb is_provisioning rest = true <-> o = Some ComputeTargetException))
  /\ forall t1, r = inr t1 ->
       (l = found \/
        l = [Called lookup (Some ComputeTargetException);
             Printed "creating new compute target";
             Called create None;
             Called (wait_for_completion t1 true None 20) None;
             Printed "Azure Machine Learning Compute attached"])
       /\ exists s2,
            compute_cell sem ws name s1 = (inr t1, s2, found)
            /\ existsb is_provisioning found = false.
Proof.
  intros Hrun lookup create found.
  assert (Hsecond : forall t s0 s',
             sem lookup s0 = (inr t, s') ->
             compute_cell sem ws name s0 = (inr t, s', found)).
  { intros t s0 s' Hl. unfold_cells. fold lookup. rewrite Hl. reflexivity. }
  destruct (compute_cell_cases sem ws name s)
    as [(t & s' & Hl & Hc)
       | [(e & s' & Hl & Hne & Hc)
       | [(s' & e & s2 & Hl & Hcr & Hc)
       | [(s' & t & s2 & e & s3 & Hl & Hcr & Hw & Hc)
       | (s' & t & s2 & u & s3 & Hl & Hcr & Hw & Hc)]]]];
    rewrite Hc in Hrun; injection Hrun as <- <- <-; fold lookup create.
  - split.
    + eexists _, _. split; [reflexivity |]. cbn. split; congruence.
    + intros t1 [= <-]. split; [left; reflexivity |].
      destruct (lookup_stable _ _ _ _ _ Hl) as [s2 Hl2].
      exists s2. split; [apply Hsecond; exact Hl2 | reflexivity].
  - split.
    + eexists _, _. split; [reflexivity |]. cbn. split; congruence.
    + intros t1 [=].
  - split.
    + eexists _, _. split; [reflexivity |]. cbn. split; congruence.
    + intros t1 [=].
  - split.
    + eexists _, _. split; [reflexivity |]. cbn. split; congruence.
    + intros t1 [=].
  - split.
    + eexists _, _. split; [reflexivity |]. cbn. split; congruence.
    + intros t1 [= <-]. split; [right; reflexivity |].
      destruct (create_registers _ _ _ _ _ _ _ _ _ _ _ Hcr Hw) as [s4 Hl2].
      exists s4. split; [apply Hsecond; exact Hl2 | reflexivity].
Qed.

End Idempotence.

(** The reference platform keeps both sides of that contract. *)
Lemma Registry_lookup_stable ws name (s : Registry.t) t s1 :
  Registry.sem (AmlCompute_lookup ws name) s = (inr t, s1) ->
  exists s2, Registry.sem (AmlCompute_lookup ws name) s1 = (inr t, s2).
Proof.
  cbn. destruct (Registry.computes s !! name) as [t' |] eqn:Hk; [| discriminate].
  intros [= <- <-]. exists s. rewrite Hk. reflexivity.
Qed.

Lemma Registry_create_registers
    ws name cfg (s : Registry.t) t s1 show_output min_node_count timeout u s2 :
  Registry.sem (ComputeTarget_create ws name cfg) s = (inr t, s1) ->
  Registry.sem (wait_for_completion t show_output min_node_count timeout) s1
    = (inr u, s2) ->
  exists s3, Registry.sem (AmlCompute_lookup ws name) s2 = (inr t, s3).
Proof.
  cbn. intros [= <- <-] [= <- <-]. cbn.
  rewrite lookup_insert_eq. eauto.
Qed.

Lemma Registry_create_honours ws name cfg (s : Registry.t) t s1 :
  Registry.sem (ComputeTarget_create ws name cfg) s = (inr t, s1) ->
  ct_name t = name /\ ct_sizing t = cfg.
Proof. cbn. intros [= <- <-]. split; reflexivity. Qed.

(** On the reference platform, started without a compute target, the first
    run of the cell provisions and the second one finds. *)
Lemma compute_cell_lookup_or_create_witness :
  exists t1 s1 l1 s2,
    compute_cell Registry.sem ws0 aml_compute_target registry0 = (inr t1, s1, l1)
    /\ existsb is_provisioning l1 = true
    /\ compute_cell Registry.sem ws0 aml_compute_target s1
       = (inr t1, s2, [Called (AmlCompute_lookup ws0 aml_compute_target) None;
                       Printed "found existing compute target.";
                       Printed "Azure Machine Learning Compute attached"]).
Proof.
  destruct (compute_cell Registry.sem ws0 aml_compute_target registry0)
    as [[r s1] l1] eqn:Hrun.
  pose proof (compute_cell_lookup_or_create Registry.sem
                Registry_lookup_stable Registry_create_registers
                ws0 aml_compute_target registry0 r s1 l1 Hrun) as [_ Hsecond].
  vm_compute in Hrun. injection Hrun as <- <- <-.
  destruct (Hsecond _ eq_refl) as [_ (s2 & H2 & _)].
  eexists _, _, _, s2. split; [reflexivity |]. split; [reflexivity |].
  exact H2.
Defined.

Section Provisioning.
Context {St : Type}.
Variable sem : forall c : Call, St -> (Exn + Resp c) * St.

(** The platform creates what it is asked to create. *)
Hypothesis create_honours :
  forall ws name cfg s t s1,
    sem (ComputeTarget_create ws name cfg) s = (inr t, s1) ->
    ct_name t = name /\ ct_sizing t = cfg.

(** C4.  When the name does not resolve, the cell asks the platform to create
    a target of that name with vm_size STANDARD_D2_V2, min_nodes 0,
    max_nodes 4 and idle_seconds_before_scaledown 1200, and the target it
    goes on with carries exactly those bounds. *)
Theorem provisioning_config_applied ws name s s1 t s2 u s3 :
  sem (AmlCompute_lookup ws name) s = (inl ComputeTargetException, s1) ->
  sem (ComputeTarget_create ws name
         {| vm_size := "STANDARD_D2_V2";
            idle_seconds_before_scaledown := 1200;
            min_nodes := 0;
            max_nodes := 4 |}) s1 = (inr t, s2) ->
  sem (wait_for_completion t true None 20) s2 = (inr u, s3) ->
  exists l,
    compute_cell sem ws name s = (inr t, s3, l)
    /\ In (Called (ComputeTarget_create ws name
                     {| vm_size := "STANDARD_D2_V2";
                        idle_seconds_before_scaledown := 1200;
                        min_nodes := 0;
                        max_nodes := 4 |}) None) l
    /\ ct_name t = name
    /\ vm_size (ct_sizing t) = "STANDARD_D2_V2"
    /\ min_nodes (ct_sizing t) = 0
    /\ max_nodes (ct_sizing t) = 4
    /\ idle_seconds_before_scaledown (ct_sizing t) = 1200.
Proof.
  intros Hl Hc Hw.
  destruct (create_honours _ _ _ _ _ _ Hc) as [Hname Hsizing].
  eexists. split.
  - unfold_cells. rewrite Hl. cbn.
    unfold provisioning_config. rewrite Hc. cbn. rewrite Hw. cbn. reflexivity.
  - rewrite Hsizing, Hname. cbn. intuition.
Qed.

End Provisioning.

(** On the reference platform the target created under a new name is
    registered with the bounds of [provisioning_config]. *)
Lemma provisioning_config_applied_witness :
  exists s3 l,
    compute_cell Registry.sem ws0 "gpu-cluster" registry0
      = (inr {| ct_name := "gpu-cluster"; ct_sizing := provisioning_config |},
         s3, l)
    /\ Registry.computes s3 !! "gpu-cluster"
       = Some {| ct_name := "gpu-cluster";
                 ct_sizing := {| vm_size := "STANDARD_D2_V2";
                                 idle_seconds_before_scaledown := 1200;
                                 min_nodes := 0;
                                 max_nodes := 4 |} |}.
Proof.
  destruct (provisioning_config_applied Registry.sem Registry_create_honours
              ws0 "gpu-cluster" registry0 registry0
              {| ct_name := "gpu-cluster"; ct_sizing := provisioning_config |}
              (Registry.with_computes registry0
                 (<["gpu-cluster" :=
                      {| ct_name := "gpu-cluster";
                         ct_sizing := provisioning_config |}]>
                    (Registry.computes registry0)))
              tt
              (Registry.with_computes registry0
                 (<["gpu-cluster" :=
                      {| ct_name := "gpu-cluster";
                         ct_sizing := provisioning_config |}]>
                    (Registry.computes registry0)))
              eq_refl eq_refl eq_refl) as (l & Hrun & _).
  eexists _, l. split; [exact Hrun |]. vm_compute. reflexivity.
Defined.

(** ** Runs of the whole notebook *)

Section Runs.
Context {St : Type}.
Variable sem : forall c : Call, St -> (Exn + Resp c) * St.

(** A run that ends without an exception went through every cell. *)
Lemma notebook_success dataset_name datastore_name s g s' l :
  notebook_with sem dataset_name datastore_name s = (inr g, s', l) ->
  exists s1 s2 lc env s3 s4 s5 sd ld u s6 run s7 s8 first_schedule s9,
    sem Workspace_from_config s = (inr (g_ws g), s1)
    /\ compute_cell sem (g_ws g) aml_compute_target s1
       = (inr (g_aml_compute g), s2, lc)
    /\ sem (Environment_from_conda_specification
              "my_pipeline" "./conda_dependencies.yml") s2 = (inr env, s3)
    /\ g_run_config g = set_environment RunConfiguration_new env
    /\ sem (Dataset_get_by_name (g_ws g) dataset_name) s3
       = (inr (g_input_dataset g), s4)
    /\ sem (Datastore_lookup (g_ws g) datastore_name) s4
       = (inr (g_datastore g), s5)
    /\ my_inputs sem (g_input_dataset g) s5 = (inr (g_my_inputs g), sd, ld)
    /\ globals_consistent g
    /\ sem (Pipeline_validate (g_pipeline g)) sd = (inr u, s6)
    /\ sem (Pipeline_submit (g_pipeline g) "pipeline-test" true) s6
       = (inr run, s7)
    /\ sem (Pipeline_publish (g_pipeline g)) s7
       = (inr (g_published_pipeline g), s8)
    /\ sem (Schedule_create
              (recurrence_schedule_args (g_ws g) (g_published_pipeline g))) s8
       = (inr first_schedule, s9)
    /\ sem (Schedule_create
              (datastore_schedule_args (g_ws g) (g_published_pipeline g)
                 (g_datastore g))) s9
       = (inr (g_schedule g), s')
    /\ l = Called Workspace_from_config None
           :: lc ++ events_before_step dataset_name datastore_name g
           ++ ld ++ events_after_step g first_schedule.
Proof.
  unfold notebook_with, environment_cell, data_cell, validate_submit_cell,
    recurrence_schedule_cell, datastore_schedule_cell,
    Nb.bind, Nb.call, Nb.print, Nb.ret.
  destruct (sem Workspace_from_config s) as [[e | ws] s1] eqn:E1;
    [intros [=] |].
  destruct (compute_cell sem ws aml_compute_target s1)
    as [[[e | aml] s2] lc] eqn:E2; [intros [=] |].
  do 3 (next_call sem; [intros [=] |]).
  match goal with
  | |- context [my_inputs sem ?d ?s0] =>
      destruct (my_inputs sem d s0) as [[[e | ins] sd] ld] eqn:Ed;
      [intros [=] |]
  end.
  do 5 (next_call sem; [intros [=] |]).
  intros [= <- <- <-]. cbn [g_ws g_aml_compute g_run_config g_input_dataset
    g_my_inputs g_datastore g_training_data g_data_prep_step g_train_step
    g_pipeline g_published_pipeline g_schedule].
  do 16 eexists.
  repeat match goal with |- _ /\ _ => split end;
    try eassumption; try reflexivity.
  all: try solve [repeat split].
  all: try (cbn; rewrite <- ?app_assoc; reflexivity).
Qed.

End Runs.

(** ** Which exceptions the notebook handles *)




Section Handling.
Context {St : Type}.
Variable sem : forall c : Call, St -> (Exn + Resp c) * St.


End Handling.


Section Answered.
Context {St : Type}.
Variable sem : forall c : Call, St -> (Exn + Resp c) * St.



End Answered.




(** ** The two schedules *)

Section Schedules.
Context {St : Type}.
Variable sem : forall c : Call, St -> (Exn + Resp c) * St.

Lemma compute_cell_schedule_creates ws name s r s1 l :
  compute_cell sem ws name s = (r, s1, l) ->
  schedule_creates l = [] /\ lookup_names l = [].
Proof.
  intros Hrun.
  destruct (compute_cell_cases sem ws name s)
    as [(t & s' & _ & Hc)
       | [(e & s' & _ & _ & Hc)
       | [(s' & e & s2 & _ & _ & Hc)
       | [(s' & t & s2 & e & s3 & _ & _ & _ & Hc)
       | (s' & t & s2 & u & s3 & _ & _ & _ & Hc)]]]];
    rewrite Hc in Hrun; injection Hrun as <- <- <-; split; reflexivity.
Qed.

Lemma my_inputs_schedule_creates ds s r s1 l :
  my_inputs sem ds s = (r, s1, l) -> schedule_creates l = [].
Proof.
  intros Hrun.
  destruct (my_inputs_cases sem ds s)
    as [(_ & e & x & _ & Hc)
       | [(_ & c & x & e & y & _ & _ & Hc)
       | [(_ & c & x & c' & y & _ & _ & Hc)
       | [(_ & e & x & _ & Hc)
       | [(_ & c & x & _ & Hc)
       | (_ & Hc)]]]]];
    rewrite Hc in Hrun; injection Hrun as <- <- <-; reflexivity.
Qed.

(** C9.  A run of the notebook that reaches its end has made exactly two
    [Schedule.create] calls, both of which returned: first the one with
    [recurrence=recurrence], then the one with [datastore=datastore].  Both
    carry the name "My_Schedule" and the id of the one pipeline the run
    published. *)
Theorem both_schedules_created dataset_name datastore_name s g s' l :
  notebook_with sem dataset_name datastore_name s = (inr g, s', l) ->
  exists a1 a2,
    schedule_creates l = [(a1, None); (a2, None)]
    /\ sc_name a1 = "My_Schedule" /\ sc_name a2 = "My_Schedule"
    /\ sc_pipeline_id a1 = published_id (g_published_pipeline g)
    /\ sc_pipeline_id a2 = published_id (g_published_pipeline g)
    /\ sc_recurrence a1 = Some recurrence /\ sc_datastore a1 = None
    /\ sc_recurrence a2 = None /\ sc_datastore a2 = Some (g_datastore g)
    /\ trigger_kind a1 = RecurrenceTrigger
    /\ trigger_kind a2 = StorageTrigger.
Proof.
  intros Hrun.
  destruct (notebook_success sem _ _ _ _ _ _ Hrun)
    as (s1 & s2 & lc & env & s3 & s4 & s5 & sd & ld & u & s6 & run & s7 & s8
        & sch1 & s9
        & _ & Hc & _ & _ & _ & _ & Hd & _ & _ & _ & _ & _ & _ & ->).
  destruct (compute_cell_schedule_creates _ _ _ _ _ _ Hc) as [Hlc _].
  pose proof (my_inputs_schedule_creates _ _ _ _ _ Hd) as Hld.
  exists (recurrence_schedule_args (g_ws g) (g_published_pipeline g)),
    (datastore_schedule_args (g_ws g) (g_published_pipeline g) (g_datastore g)).
  split; [| repeat split].
  unfold schedule_creates in *. cbn [flat_map app].
  rewrite !flat_map_app, Hlc, Hld. reflexivity.
Qed.

End Schedules.

(** The notebook as shipped on a workspace whose dataset and datastore have
    the empty name runs to its end and creates both schedules. *)
Lemma both_schedules_created_witness :
  exists g s' l,
    notebook Registry.sem (Registry.fresh "" "") = (inr g, s', l)
    /\ map (fun c => (sc_name (fst c), sc_pipeline_id (fst c),
                      trigger_kind (fst c), snd c))
           (schedule_creates l)
       = [("My_Schedule", "pipeline", RecurrenceTrigger, None);
          ("My_Schedule", "pipeline", StorageTrigger, None)].
Proof.
  destruct (notebook Registry.sem (Registry.fresh "" "")) as [[r s'] l] eqn:Hrun.
  assert (Hg : exists g, r = inr g /\ published_id (g_published_pipeline g) = "pipeline").
  { vm_compute in Hrun. injection Hrun as <- _ _. eexists. split; reflexivity. }
  destruct Hg as (g & -> & Hid).
  destruct (both_schedules_created Registry.sem DATASET_NAME DATASTORE_NAME
              (Registry.fresh "" "") g s' l Hrun)
    as (a1 & a2 & Hsc & Hn1 & Hn2 & Hp1 & Hp2 & _ & _ & _ & _ & Hk1 & Hk2).
  exists g, s', l. split; [reflexivity |].
  rewrite Hsc. cbn. rewrite Hn1, Hn2, Hp1, Hp2, Hk1, Hk2, Hid. reflexivity.
Defined.

(** ** Properties of every run *)

Lemma in_lookup_names_dataset l ws n o :
  In (Called (Dataset_get_by_name ws n) o) l -> In n (lookup_names l).
Proof.
  intros Hin. unfold lookup_names. apply in_flat_map.
  eexists. split; [exact Hin |]. cbn. auto.
Qed.

Lemma in_lookup_names_datastore l ws n o :
  In (Called (Datastore_lookup ws n) o) l -> In n (lookup_names l).
Proof.
  intros Hin. unfold lookup_names. apply in_flat_map.
  eexists. split; [exact Hin |]. cbn. auto.
Qed.

Lemma in_schedule_creates l a o :
  In (Called (Schedule_create a) o) l -> In (a, o) (schedule_creates l).
Proof.
  intros Hin. unfold schedule_creates. apply in_flat_map.
  eexists. split; [exact Hin |]. cbn. auto.
Qed.

Section EveryRun.
Context {St : Type}.
Variable sem : forall c : Call, St -> (Exn + Resp c) * St.

(** Whatever the platform answers, the only names looked up are the two
    parameters, and every schedule asked for has one trigger. *)
Lemma notebook_lookups_and_schedules dataset_name datastore_name s r s' l :
  notebook_with sem dataset_name datastore_name s = (r, s', l) ->
  Forall (fun n => n = dataset_name \/ n = datastore_name) (lookup_names l)
  /\ Forall (fun c => trigger_kind (fst c) = RecurrenceTrigger
                      \/ trigger_kind (fst c) = StorageTrigger)
            (schedule_creates l).
Proof.
  notebook_paths sem
    ltac:(cbn; split; repeat (constructor; [cbn; auto |]); constructor).
Qed.

End EveryRun.

(** C10.  [DATASET_NAME] and [DATASTORE_NAME] are the empty string.  Once
    the workspace, the compute cell and the environment call have returned,
    the notebook as shipped invokes the dataset lookup with the empty
    string: if that raises, the notebook ends with its exception; if it
    returns, the notebook invokes the datastore lookup with the empty
    string, and ends with its exception if that one raises.  In this and in
    every other run of the notebook as shipped, on any platform, no dataset
    or datastore lookup carries another name than the empty one. *)
Theorem shipped_names_are_empty
    {St : Type} (sem : forall c : Call, St -> (Exn + Resp c) * St)
    s ws s1 aml s2 lc env s3 :
  sem Workspace_from_config s = (inr ws, s1) ->
  compute_cell sem ws aml_compute_target s1 = (inr aml, s2, lc) ->
  sem (Environment_from_conda_specification
         "my_pipeline" "./conda_dependencies.yml") s2 = (inr env, s3) ->
  let before :=
    Called Workspace_from_config None
    :: lc ++ [Called (Environment_from_conda_specification
                        "my_pipeline" "./conda_dependencies.yml") None] in
  DATASET_NAME = "" /\ DATASTORE_NAME = ""
  /\ (exists r s' l,
         notebook sem s = (r, s', l)
         /\ match sem (Dataset_get_by_name ws "") s3 with
            | (inl e, _) =>
                r = inl e
                /\ l = before ++ [Called (Dataset_get_by_name ws "") (Some e)]
            | (inr ds, s4) =>
                match sem (Datastore_lookup ws "") s4 with
                | (inl e, _) =>
                    r = inl e
                    /\ l = before
                           ++ [Called (Dataset_get_by_name ws "") None;
                               Called (Datastore_lookup ws "") (Some e)]
                | (inr d, _) =>
                    exists rest,
                      l = before
                          ++ [Called (Dataset_get_by_name ws "") None;
                              Called (Datastore_lookup ws "") None]
                          ++ rest
                end
            end)
  /\ (forall s0 r0 s0' l0,
         notebook sem s0 = (r0, s0', l0) ->
         (forall ws' n o,
             In (Called (Dataset_get_by_name ws' n) o) l0 -> n = "")
         /\ (forall ws' n o,
                In (Called (Datastore_lookup ws' n) o) l0 -> n = "")).
Proof.
  intros E1 E2 E3 before. subst before.
  split; [reflexivity |]. split; [reflexivity |]. split.
  - unfold notebook, notebook_with, DATASET_NAME, DATASTORE_NAME,
      environment_cell, data_cell, my_inputs,
      validate_submit_cell, recurrence_schedule_cell, datastore_schedule_cell,
      Nb.bind, Nb.call, Nb.print, Nb.ret.
    rewrite E1, E2, E3. cbn [app].
    next_call sem;
      [do 3 eexists; split;
       [reflexivity | split; [reflexivity |];
                      cbn; rewrite <- app_assoc; reflexivity] |].
    next_call sem;
      [do 3 eexists; split;
       [reflexivity | split; [reflexivity |];
                      cbn; rewrite <- app_assoc; reflexivity] |].
    repeat first
      [ next_call sem;
        [do 3 eexists; split;
         [reflexivity | eexists; cbn; rewrite <- app_assoc; reflexivity] |]
      | match goal with
        | |- context [ds_class ?d] => destruct (ds_class d); cbn [app]
        end ].
    all: do 3 eexists; split;
      [reflexivity | eexists; cbn; rewrite <- app_assoc; reflexivity].
  - intros s0 r0 s0' l0 Hrun. unfold notebook in Hrun.
    destruct (notebook_lookups_and_schedules sem _ _ _ _ _ _ Hrun)
      as [Hnames _].
    rewrite List.Forall_forall in Hnames.
    split.
    + intros ws' n o Hin.
      destruct (Hnames n (in_lookup_names_dataset _ _ _ _ Hin)) as [-> | ->];
        reflexivity.
    + intros ws' n o Hin.
      destruct (Hnames n (in_lookup_names_datastore _ _ _ _ Hin)) as [-> | ->];
        reflexivity.
Qed.

(** The notebook as shipped on a workspace whose dataset and datastore have
    the empty name: both lookups are made with the empty string and
    return. *)
Lemma shipped_names_are_empty_witness :
  exists r s' l rest,
    notebook Registry.sem (Registry.fresh "" "") = (r, s', l)
    /\ l = [Called Workspace_from_config None;
            Called (AmlCompute_lookup ws0 "cpu-cluster")
              (Some ComputeTargetException);
            Printed "creating new compute target";
            Called (ComputeTarget_create ws0 "cpu-cluster" provisioning_config)
              None;
            Called (wait_for_completion
                      {| ct_name := "cpu-cluster";
                         ct_sizing := provisioning_config |} true None 20)
              None;
            Printed "Azure Machine Learning Compute attached";
            Called (Environment_from_conda_specification
                      "my_pipeline" "./conda_dependencies.yml") None;
            Called (Dataset_get_by_name ws0 "") None;
            Called (Datastore_lookup ws0 "") None]
           ++ rest.
Proof.
  pose proof (shipped_names_are_empty Registry.sem (Registry.fresh "" "")
                ws0 (Registry.fresh "" "")
                {| ct_name := "cpu-cluster"; ct_sizing := provisioning_config |}
                _ _
                {| env_name := "my_pipeline";
                   env_file_path := "./conda_dependencies.yml" |}
                _ eq_refl eq_refl eq_refl)
    as (_ & _ & (r & s' & l & Hrun & Hl) & _).
  cbn in Hl. destruct Hl as [rest Hl].
  exists r, s', l, rest. split; [exact Hrun | exact Hl].
Defined.

(** C6 (as amended).  The keyword arguments of the recurrence schedule
    populate [recurrence] and none of [datastore], [path_on_datastore],
    [polling_interval]; those of the datastore schedule populate [datastore]
    and not [recurrence]; and in every run of the notebook, on any platform,
    each [Schedule.create] call carries exactly one of the two triggers. *)
Theorem schedule_variants_exclusive :
  (forall ws published_pipeline,
      let a := recurrence_schedule_args ws published_pipeline in
      sc_recurrence a = Some recurrence
      /\ sc_datastore a = None
      /\ sc_path_on_datastore a = None
      /\ sc_polling_interval a = None
      /\ populates_storage_trigger a = false
      /\ trigger_kind a = RecurrenceTrigger)
  /\ (forall ws published_pipeline datastore,
         let a := datastore_schedule_args ws published_pipeline datastore in
         sc_datastore a = Some datastore
         /\ sc_recurrence a = None
         /\ populates_recurrence a = false
         /\ trigger_kind a = StorageTrigger)
  /\ (forall (St : Type) (sem : forall c : Call, St -> (Exn + Resp c) * St)
             dataset_name datastore_name (s : St) r s' l,
         notebook_with sem dataset_name datastore_name s = (r, s', l) ->
         forall a o,
           In (Called (Schedule_create a) o) l ->
           trigger_kind a = RecurrenceTrigger \/ trigger_kind a = StorageTrigger).
Proof.
  split; [| split].
  - intros ws pp a. subst a. repeat split.
  - intros ws pp d a. subst a. repeat split.
  - intros St sem dn sn s r s' l Hrun a o Hin.
    destruct (notebook_lookups_and_schedules sem _ _ _ _ _ _ Hrun) as [_ Hk].
    rewrite List.Forall_forall in Hk.
    exact (Hk (a, o) (in_schedule_creates _ _ _ Hin)).
Qed.

(** On the reference platform a run of the notebook ends with two schedules
    bound to the pipeline it published, one of each kind. *)
Lemma two_variants_bound_to_one_pipeline :
  exists g s' l,
    notebook_with Registry.sem "titanic" "blobs" registry0 = (inr g, s', l)
    /\ Registry.bound_triggers s' (published_id (g_published_pipeline g))
       = [RecurrenceTrigger; StorageTrigger].
Proof.
  eexists _, _, _. split.
  - vm_compute. reflexivity.
  - vm_compute. reflexivity.
Qed.

(** ** The dataset binding of the data-prep step *)

Section Dispatch.
Context {St : Type}.
Variable sem : forall c : Call, St -> (Exn + Resp c) * St.


End Dispatch.



(** ** Validation and the graph *)

Lemma existsb_false {A : Type} (f : A -> bool) (l : list A) :
  existsb f l = false <-> forall x, In x l -> f x = false.
Proof.
  induction l as [| y l IH]; cbn.
  - split; [intros _ x [] | reflexivity].
  - rewrite orb_false_iff, IH. split.
    + intros [Hy Hl] x [<- | Hx]; auto.
    + intros H. split; [apply H; auto | intros x Hx; apply H; auto].
Qed.

Lemma produces_true a d :
  produces a d = true
  <-> exists o, In o (outputs a) /\ pd_name o = pd_name d.
Proof.
  unfold produces. rewrite existsb_exists.
  split; intros (o & Hin & Heq); exists o; split; auto;
    apply String.eqb_eq; exact Heq.
Qed.

Lemma produces_false a d :
  produces a d = false
  <-> forall o, In o (outputs a) -> pd_name o <> pd_name d.
Proof.
  unfold produces. rewrite existsb_false.
  split; intros H o Hin; specialize (H o Hin).
  - apply String.eqb_neq. exact H.
  - apply String.eqb_neq. exact H.
Qed.

Lemma has_unproduced_input_spec steps :
  has_unproduced_input steps = true <-> unproduced_input steps.
Proof.
  unfold has_unproduced_input, unproduced_input. rewrite existsb_exists.
  split.
  - intros (b & Hb & Hex). apply existsb_exists in Hex as (d & Hd & Hneg).
    apply negb_true_iff in Hneg. rewrite existsb_false in Hneg.
    exists b, d. repeat split; auto.
    intros a o Ha Ho. exact (proj1 (produces_false a d) (Hneg a Ha) o Ho).
  - intros (b & d & Hb & Hd & Hno). exists b. split; [exact Hb |].
    apply existsb_exists. exists d. split; [exact Hd |].
    apply negb_true_iff. apply existsb_false. intros a Ha.
    apply produces_false. intros o Ho. exact (Hno a o Ha Ho).
Qed.

Lemma has_unset_compute_spec steps :
  has_unset_compute steps = true <-> unset_compute steps.
Proof.
  unfold has_unset_compute, unset_compute. rewrite existsb_exists.
  split; intros (st & Hin & H); exists st; split; auto;
    apply String.eqb_eq; exact H.
Qed.

Lemma has_missing_dataset_spec dataset_exists steps :
  has_missing_dataset dataset_exists steps = true
  <-> missing_dataset dataset_exists steps.
Proof.
  unfold has_missing_dataset, missing_dataset. rewrite existsb_exists.
  split.
  - intros (st & Hin & Hex). apply existsb_exists in Hex as (ds & Hds & Hneg).
    apply negb_true_iff in Hneg. eauto.
  - intros (st & ds & Hin & Hds & Hno). exists st. split; [exact Hin |].
    apply existsb_exists. exists ds. split; [exact Hds |].
    apply negb_true_iff. exact Hno.
Qed.

Lemma validate_unproduced (dataset_exists : string -> bool) p :
  unproduced_input (pl_steps p) ->
  validate dataset_exists p = inl ConfigurationError.
Proof.
  intros H. apply has_unproduced_input_spec in H.
  unfold validate. rewrite H. reflexivity.
Qed.

(** C3.  [validate] fails with [ConfigurationError] exactly when a declared
    input slot has no producing step, or a step's compute target has no
    name, or a dataset bound as a named input does not exist; in every other
    case it succeeds, and it fails with no other exception. *)
Theorem validate_fails_exactly dataset_exists p :
  let failing :=
    unproduced_input (pl_steps p)
    \/ unset_compute (pl_steps p)
    \/ missing_dataset dataset_exists (pl_steps p) in
  (validate dataset_exists p = inl ConfigurationError <-> failing)
  /\ (validate dataset_exists p = inr tt <-> ~ failing)
  /\ (forall e, validate dataset_exists p = inl e -> e = ConfigurationError).
Proof.
  intros failing. subst failing.
  rewrite <- has_unproduced_input_spec, <- has_unset_compute_spec,
    <- (has_missing_dataset_spec dataset_exists).
  unfold validate.
  destruct (has_unproduced_input (pl_steps p));
    destruct (has_unset_compute (pl_steps p));
    destruct (has_missing_dataset dataset_exists (pl_steps p));
    (split; [| split]); try (intros e); intuition congruence.
Qed.

Lemma data_prep_has_no_input_slot ds bound o aml rc :
  input_slots
    (data_prep_step ds (option_map (fun c => [InputDataset c]) bound) o aml rc)
  = [].
Proof. destruct bound; reflexivity. Qed.

Lemma edge_data_prep_train ds ins aml rc o i :
  edge (data_prep_step ds ins o aml rc) (train_step i aml rc)
  = String.eqb (pd_name o) (pd_name i).
Proof. cbn. rewrite !orb_false_r. reflexivity. Qed.

(** What the dispatch leaves in [my_inputs]: one dataset binding or
    nothing. *)
Lemma my_inputs_is_binding
    {St : Type} (sem : forall c : Call, St -> (Exn + Resp c) * St)
    ds s ins s1 l :
  my_inputs sem ds s = (inr ins, s1, l) ->
  exists bound, ins = option_map (fun c => [InputDataset c]) bound.
Proof.
  intros Hrun.
  destruct (my_inputs_cases sem ds s)
    as [(_ & e & x & _ & Hc)
       | [(_ & c & x & e & y & _ & _ & Hc)
       | [(_ & c & x & c' & y & _ & _ & Hc)
       | [(_ & e & x & _ & Hc)
       | [(_ & c & x & _ & Hc)
       | (_ & Hc)]]]]];
    rewrite Hc in Hrun; try discriminate Hrun; injection Hrun as <- _ _.
  - exists (Some c'). reflexivity.
  - exists (Some c). reflexivity.
  - exists None. reflexivity.
Qed.

(** C2.  For a data-prep step that writes slot [o] and a train step that
    reads slot [i], built as the notebook builds them (the data-prep step
    with one dataset binding or with none), there is an edge from the first
    to the second exactly when the two slot names are equal, there is no
    edge back, and when the names differ validation fails.  The notebook
    gives both steps the one slot named "training_data", so the graph of its
    pipeline is the single edge from data-prep to train; this holds for the
    pipeline of every run that reaches its end. *)
Theorem two_step_edge ws ds (bound : option DatasetConsumptionConfig) aml rc
    dataset_exists (o i : PipelineData) :
  let my_inputs := option_map (fun c => [InputDataset c]) bound in
  let dp := data_prep_step ds my_inputs o aml rc in
  let tr := train_step i aml rc in
  (edge dp tr = true <-> pd_name o = pd_name i)
  /\ edge tr dp = false
  /\ (pd_name o <> pd_name i ->
      validate dataset_exists (pipeline ws dp tr) = inl ConfigurationError)
  /\ (forall datastore,
         let td := training_data datastore in
         let dp := data_prep_step ds my_inputs td aml rc in
         let tr := train_step td aml rc in
         pd_name td = "training_data"
         /\ outputs dp = [td]
         /\ inputs tr = Some [InputSlot td]
         /\ edges (pl_steps (pipeline ws dp tr)) = [(dp, tr)])
  /\ (forall (St : Type) (sem : forall c : Call, St -> (Exn + Resp c) * St)
             dataset_name datastore_name (s : St) g s' l,
         notebook_with sem dataset_name datastore_name s = (inr g, s', l) ->
         edges (pl_steps (g_pipeline g)) = [(g_data_prep_step g, g_train_step g)]
         /\ outputs (g_data_prep_step g) = [g_training_data g]
         /\ inputs (g_train_step g) = Some [InputSlot (g_training_data g)]
         /\ pd_name (g_training_data g) = "training_data").
Proof.
  intros my_inputs dp tr. subst my_inputs dp tr.
  assert (Hedges : forall ds' bound' aml' rc' td,
             let ins := option_map (fun c => [InputDataset c]) bound' in
             edges (pl_steps (pipeline ws (data_prep_step ds' ins td aml' rc')
                                (train_step td aml' rc')))
             = [(data_prep_step ds' ins td aml' rc', train_step td aml' rc')]).
  { intros ds' bound' aml' rc' td ins. subst ins.
    unfold edges, pipeline. cbn [pl_steps flat_map app].
    rewrite edge_data_prep_train, String.eqb_refl.
    unfold edge at 1 2. rewrite data_prep_has_no_input_slot.
    cbn. reflexivity. }
  split; [| split; [| split; [| split]]].
  - rewrite edge_data_prep_train. apply String.eqb_eq.
  - unfold edge. rewrite data_prep_has_no_input_slot. reflexivity.
  - intros Hne.
    apply validate_unproduced.
    exists (train_step i aml rc), i. cbn.
    repeat split; auto.
    intros a o' [<- | [<- | []]] Ho'; cbn in Ho'.
    + destruct Ho' as [<- | []]. exact Hne.
    + destruct Ho'.
  - intros datastore td dp tr. subst td dp tr.
    repeat split. apply Hedges.
  - intros St sem dn sn s g s' l Hrun.
    destruct (notebook_success sem _ _ _ _ _ _ Hrun)
      as (s1 & s2 & lc & env & s3 & s4 & s5 & sd & ld & u & s6 & run & s7 & s8
          & sch1 & s9
          & _ & _ & _ & _ & _ & _ & Hd & (Htd & Hdp & Htr & Hp) & _).
    destruct (my_inputs_is_binding sem _ _ _ _ _ Hd) as [bound' Hins].
    rewrite Hp, Hdp, Htr, Htd, Hins.
    repeat split. cbn [pl_workspace].
    generalize (Hedges (g_input_dataset g) bound' (g_aml_compute g)
                  (g_run_config g) (training_data (g_datastore g))).
    unfold pipeline. cbn [pl_steps]. intros H. exact H.
Qed.

(** ** The recurrence *)

(** C5.  The recurrence the notebook constructs has frequency Day, interval
    2, hours [22] and minutes [30]; it is the recurrence of the first
    [Schedule.create]; and it fires on day [day] at [hour]:[minute] exactly
    when [day] is an even day counted from the start of the schedule and the
    time is 22:30, that is, every other day at 22:30. *)
Theorem recurrence_every_other_day :
  recurrence = {| frequency := "Day"; interval := 2;
                  hours := [22]; minutes := [30] |}
  /\ parse_frequency (frequency recurrence) = Some Day
  /\ (forall ws published_pipeline,
         sc_recurrence (recurrence_schedule_args ws published_pipeline)
         = Some recurrence)
  /\ (forall day hour minute,
         fires_at recurrence day hour minute = true
         <-> 0 <= day /\ day mod 2 = 0 /\ hour = 22 /\ minute = 30)
  /\ (forall k, 0 <= k ->
         fires_at recurrence (2 * k) 22 30 = true
         /\ fires_at recurrence (2 * k + 1) 22 30 = false).
Proof.
  assert (Hfires : forall day hour minute,
             fires_at recurrence day hour minute = true
             <-> 0 <= day /\ day mod 2 = 0 /\ hour = 22 /\ minute = 30).
  { intros day hour minute. unfold fires_at, recurrence, mem_Z. cbn.
    rewrite !orb_false_r, !andb_true_iff, Z.leb_le, !Z.eqb_eq.
    intuition. }
  split; [reflexivity |]. split; [reflexivity |].
  split; [reflexivity |]. split; [exact Hfires |].
  intros k Hk. split.
  - apply Hfires. split; [lia |]. split; [| split; reflexivity].
    rewrite Z.mul_comm. apply Z.mod_mul. lia.
  - apply not_true_is_false. intros Hf. apply Hfires in Hf.
    destruct Hf as (_ & Hmod & _).
    rewrite Z.add_comm, Z.mul_comm, Z.mod_add in Hmod by lia.
    discriminate Hmod.
Qed.

(** ** Runs on the reference platform *)

(** A workspace without a compute target: the cell provisions one. *)
Example compute_cell_provisions :
  compute_cell Registry.sem ws0 aml_compute_target registry0
  = (inr {| ct_name := "cpu-cluster"; ct_sizing := provisioning_config |},
     Registry.with_computes registry0
       {[ "cpu-cluster" := {| ct_name := "cpu-cluster";
                              ct_sizing := provisioning_config |} ]},
     [Called (AmlCompute_lookup ws0 "cpu-cluster") (Some ComputeTargetException);
      Printed "creating new compute target";
      Called (ComputeTarget_create ws0 "cpu-cluster" provisioning_config) None;
      Called (wait_for_completion
                {| ct_name := "cpu-cluster"; ct_sizing := provisioning_config |}
                true None 20) None;
      Printed "Azure Machine Learning Compute attached"]).
Proof. reflexivity. Qed.

(** The notebook as shipped, where no dataset has the empty name: the run
    ends at the dataset lookup, the eighth event. *)
Example shipped_notebook_stops_at_dataset_lookup :
  match notebook Registry.sem registry0 with
  | (r, _, l) =>
      r = inl (PlatformError "UserErrorException")
      /\ length l = 8%nat
      /\ last l
         = Some (Called (Dataset_get_by_name ws0 "")
                   (Some (PlatformError "UserErrorException")))
  end.
Proof. vm_compute. repeat split. Qed.

(** The three branches of the dispatch, and a name the platform does not
    take. *)
Example my_inputs_file :
  let ds := {| ds_class := FileDataset; ds_name := "titanic" |} in
  let named := {| dcc_name := "titanic"; dcc_dataset := ds;
                  dcc_mounted := false |} in
  let mounted := {| dcc_name := "titanic"; dcc_dataset := ds;
                    dcc_mounted := true |} in
  my_inputs Registry.sem ds registry0
  = (inr (Some [InputDataset mounted]), registry0,
     [Called (as_named_input ds "titanic") None;
      Called (as_mount named) None]).
Proof. reflexivity. Qed.

Example my_inputs_tabular :
  let ds := {| ds_class := TabularDataset; ds_name := "titanic" |} in
  let named := {| dcc_name := "titanic"; dcc_dataset := ds;
                  dcc_mounted := false |} in
  my_inputs Registry.sem ds registry0
  = (inr (Some [InputDataset named]), registry0,
     [Called (as_named_input ds "titanic") None]).
Proof. reflexivity. Qed.

Example my_inputs_other :
  my_inputs Registry.sem {| ds_class := OtherDataset; ds_name := "titanic" |}
    registry0
  = (inr None, registry0, []).
Proof. reflexivity. Qed.

Example my_inputs_rejected_name :
  let ds := {| ds_class := TabularDataset; ds_name := "my-data" |} in
  my_inputs Registry.sem ds registry0
  = (inl (PlatformError "UserErrorException"), registry0,
     [Called (as_named_input ds "my-data")
        (Some (PlatformError "UserErrorException"))]).
Proof. reflexivity. Qed.

(** With a dataset of neither class the notebook runs to its end. *)
Example notebook_with_other_dataset :
  exists g s' l,
    notebook_with Registry.sem "titanic" "blobs" registry_legacy = (inr g, s', l)
    /\ inputs (g_data_prep_step g) = None.
Proof. eexists _, _, _. split; vm_compute; reflexivity. Qed.

(** A train step that reads a slot the data-prep step does not write. *)
Example mismatched_slot_fails_validation :
  let d := {| dstore_name := "blobs" |} in
  let aml := {| ct_name := "cpu-cluster"; ct_sizing := provisioning_config |} in
  let ds := {| ds_class := FileDataset; ds_name := "titanic" |} in
  validate (fun _ => true)
    (pipeline ws0
       (data_prep_step ds None {| pd_name := "prepared"; pd_datastore := d |}
          aml RunConfiguration_new)
       (train_step (training_data d) aml RunConfiguration_new))
  = inl ConfigurationError
  /\ validate (fun _ => true)
       (pipeline ws0
          (data_prep_step ds None (training_data d) aml RunConfiguration_new)
          (train_step (training_data d) aml RunConfiguration_new))
     = inr tt.
Proof. split; reflexivity. Qed.

(** Day 0 and day 2 at 22:30, not day 1, and not at 10:30. *)
Example recurrence_fires :
  fires_at recurrence 0 22 30 = true
  /\ fires_at recurrence 1 22 30 = false
  /\ fires_at recurrence 2 22 30 = true
  /\ fires_at recurrence 2 10 30 = false.
Proof. repeat split. Qed.

(** * Further properties *)

(** ** The conversion cell *)



(** With [errexit] among the inherited [SHELLOPTS] the first failing command
    ends the cell, which raises. *)
Example convert_cell_with_errexit :
  bash_cell (fun _ _ (w : unit) => (1, w))
    (fun _ st (w : unit) => (inr st, w)) convert_script
    {[ "SHELLOPTS" := "braceexpand:errexit:hashall" ]} tt
  = (inl (PlatformError "CalledProcessError"), tt,
     [(["pip"; "install"; "yapf"], 1)]).
Proof. vm_compute. reflexivity. Qed.

(** ** The order of the calls *)

Lemma each_after_split ok seen l :
  each_after ok seen l ->
  forall l1 ev l2, l = l1 ++ ev :: l2 -> ok (seen ++ l1) ev.
Proof.
  intros Hl l1. revert seen l Hl.
  induction l1 as [| x l1 IH]; intros seen l Hl ev l2 ->; cbn in Hl.
  - rewrite app_nil_r. exact (proj1 Hl).
  - replace (seen ++ x :: l1) with ((seen ++ [x]) ++ l1)
      by (rewrite <- app_assoc; reflexivity).
    exact (IH _ _ (proj2 Hl) _ _ eq_refl).
Qed.

Ltac solve_gated :=
  cbn;
  repeat match goal with
         | |- True => exact I
         | |- _ /\ _ => split
         | |- In _ _ => cbn; solve [eauto 30]
         | |- _ \/ _ => solve [eauto 30]
         | |- exists _, _ => eexists
         | |- _ = _ -> _ => let H := fresh in intros H; try discriminate H
         | |- _ = _ => reflexivity
         end.

Section Order.
Context {St : Type}.
Variable sem : forall c : Call, St -> (Exn + Resp c) * St.

Lemma notebook_gated dataset_name datastore_name s r s' l :
  notebook_with sem dataset_name datastore_name s = (r, s', l) ->
  each_after gated [] l.
Proof. notebook_paths sem ltac:(solve_gated). Qed.

(** X2.  In every run, on any platform: a pipeline is submitted only after
    its validation returned; it is published only after its validation and
    its test submission returned; a schedule is created only after a
    publish returned; and the datastore schedule is created only after the
    recurrence schedule for the same pipeline id was created. *)
Theorem publish_only_after_validate_and_submit
    dataset_name datastore_name s r s' l :
  notebook_with sem dataset_name datastore_name s = (r, s', l) ->
  (forall l1 p experiment_name regenerate_outputs o l2,
      l = l1 ++ Called (Pipeline_submit p experiment_name regenerate_outputs) o
                :: l2 ->
      In (Called (Pipeline_validate p) None) l1)
  /\ (forall l1 p o l2,
         l = l1 ++ Called (Pipeline_publish p) o :: l2 ->
         In (Called (Pipeline_validate p) None) l1
         /\ In (Called (Pipeline_submit p "pipeline-test" true) None) l1)
  /\ (forall l1 a o l2,
         l = l1 ++ Called (Schedule_create a) o :: l2 ->
         (exists p, In (Called (Pipeline_publish p) None) l1)
         /\ (sc_recurrence a = None ->
             exists a1, In (Called (Schedule_create a1) None) l1
                        /\ sc_recurrence a1 = Some recurrence
                        /\ sc_pipeline_id a1 = sc_pipeline_id a)).
Proof.
  intros Hrun.
  pose proof (each_after_split _ _ _ (notebook_gated _ _ _ _ _ _ Hrun)) as H.
  split; [| split].
  - intros l1 p e b o l2 Hl. exact (H _ _ _ Hl).
  - intros l1 p o l2 Hl. exact (H _ _ _ Hl).
  - intros l1 a o l2 Hl. exact (H _ _ _ Hl).
Qed.

End Order.

(** The statement at the run of the notebook on the reference platform with
    the dataset "titanic" and the datastore "blobs". *)
Lemma publish_only_after_validate_and_submit_witness :
  exists r s' l,
    notebook_with Registry.sem "titanic" "blobs" registry0 = (r, s', l)
    /\ forall l1 p o l2,
         l = l1 ++ Called (Pipeline_publish p) o :: l2 ->
         In (Called (Pipeline_validate p) None) l1
         /\ In (Called (Pipeline_submit p "pipeline-test" true) None) l1.
Proof.
  destruct (notebook_with Registry.sem "titanic" "blobs" registry0)
    as [[r s'] l] eqn:Hrun.
  exists r, s', l. split; [reflexivity |].
  exact (proj1 (proj2 (publish_only_after_validate_and_submit
                         Registry.sem _ _ _ _ _ _ Hrun))).
Defined.

(** ** One workspace, one pipeline *)

Lemma all_equal_in {A : Type} (x : A) (l : list A) :
  Forall (eq x) l -> forall a b, In a (x :: l) -> In b (x :: l) -> a = b.
Proof.
  intros H a b Ha Hb. rewrite List.Forall_forall in H.
  assert (Hx : forall c, In c (x :: l) -> c = x).
  { intros c [<- | Hc]; [reflexivity | symmetry; exact (H c Hc)]. }
  rewrite (Hx a Ha), (Hx b Hb). reflexivity.
Qed.

Section Handles.
Context {St : Type}.
Variable sem : forall c : Call, St -> (Exn + Resp c) * St.

Lemma notebook_workspace_and_pipeline dataset_name datastore_name s r s' l :
  notebook_with sem dataset_name datastore_name s = (r, s', l) ->
  (forall ws s1, sem Workspace_from_config s = (inr ws, s1) ->
                 Forall (eq ws) (flat_map call_workspaces l))
  /\ one_pipeline (pipelines_of l).
Proof.
  notebook_paths sem
    ltac:(cbn; split;
          [ let Hws := fresh "Hws" in
            intros ? ? Hws;
            first [ discriminate Hws
                  | injection Hws as <- <-; repeat constructor ]
          | first [ exact I
                  | split; [repeat constructor | do 6 eexists; reflexivity] ] ]).
Qed.

(** X3.  Every call of a run that takes a workspace, directly or inside the
    pipeline or the schedule arguments it carries, is made against the
    workspace [Workspace.from_config()] returned at the start of that
    run. *)
Theorem single_workspace dataset_name datastore_name s ws s1 r s' l :
  sem Workspace_from_config s = (inr ws, s1) ->
  notebook_with sem dataset_name datastore_name s = (r, s', l) ->
  forall ev w, In ev l -> In w (call_workspaces ev) -> w = ws.
Proof.
  intros Hws Hrun ev w Hev Hw.
  destruct (notebook_workspace_and_pipeline _ _ _ _ _ _ Hrun) as [H _].
  specialize (H ws s1 Hws). rewrite List.Forall_forall in H.
  symmetry. apply H. apply in_flat_map. exists ev. split; assumption.
Qed.

(** X4.  In every run, the pipeline that is validated, the one that is
    submitted and the one that is published are the same value.  It has two
    steps, "data_prep_step" then "training_step", which share one compute
    target and one run configuration, and that run configuration has an
    environment. *)
Theorem one_pipeline_two_steps dataset_name datastore_name s r s' l :
  notebook_with sem dataset_name datastore_name s = (r, s', l) ->
  (forall p q, In p (pipelines_of l) -> In q (pipelines_of l) -> p = q)
  /\ forall p, In p (pipelines_of l) ->
       exists st1 st2 env,
         pl_steps p = [st1; st2]
         /\ step_name st1 = "data_prep_step"
         /\ step_name st2 = "training_step"
         /\ compute_target st1 = compute_target st2
         /\ runconfig st1 = runconfig st2
         /\ environment (runconfig st1) = Some env.
Proof.
  intros Hrun.
  destruct (notebook_workspace_and_pipeline _ _ _ _ _ _ Hrun) as [_ H].
  destruct (pipelines_of l) as [| p0 rest]; [split; intros; contradiction |].
  destruct H as [Hall (ws & ds & ins & d & aml & env & Hp0)].
  pose proof (all_equal_in p0 rest Hall) as Heq.
  split; [exact Heq |].
  intros p Hp. rewrite (Heq p p0 Hp (or_introl eq_refl)), Hp0.
  do 3 eexists. repeat split.
Qed.

End Handles.

(** The two statements at the run of the notebook on the reference platform. *)
Lemma single_workspace_witness :
  exists r s' l,
    notebook_with Registry.sem "titanic" "blobs" registry0 = (r, s', l)
    /\ forall ev w, In ev l -> In w (call_workspaces ev) -> w = ws0.
Proof.
  destruct (notebook_with Registry.sem "titanic" "blobs" registry0)
    as [[r s'] l] eqn:Hrun.
  exists r, s', l. split; [reflexivity |].
  exact (single_workspace Registry.sem "titanic" "blobs" registry0 ws0 registry0
           r s' l eq_refl Hrun).
Defined.

Lemma one_pipeline_two_steps_witness :
  exists r s' l,
    notebook_with Registry.sem "titanic" "blobs" registry0 = (r, s', l)
    /\ length (pipelines_of l) = 3%nat
    /\ forall p q, In p (pipelines_of l) -> In q (pipelines_of l) -> p = q.
Proof.
  destruct (notebook_with Registry.sem "titanic" "blobs" registry0)
    as [[r s'] l] eqn:Hrun.
  pose proof (one_pipeline_two_steps Registry.sem _ _ _ _ _ _ Hrun) as [H _].
  exists r, s', l. split; [reflexivity |]. split; [| exact H].
  vm_compute in Hrun. injection Hrun as _ _ <-. reflexivity.
Defined.

(** ** The run that reaches the end *)

Section FullRun.
Context {St : Type}.
Variable sem : forall c : Call, St -> (Exn + Resp c) * St.


(** X7.  When the notebook has run to its end, [schedule] is what the
    datastore [Schedule.create] returned and the platform is in the state
    that call left; the recurrence schedule, created one call earlier, is
    no longer bound to a name, and its id is in the printed line only.  The
    last line printed is the id of the datastore schedule. *)
Theorem final_schedule_is_datastore_schedule
    dataset_name datastore_name s g s' l :
  notebook_with sem dataset_name datastore_name s = (inr g, s', l) ->
  exists s8 first_schedule s9,
    sem (Schedule_create
           (recurrence_schedule_args (g_ws g) (g_published_pipeline g))) s8
      = (inr first_schedule, s9)
    /\ sem (Schedule_create
              (datastore_schedule_args (g_ws g) (g_published_pipeline g)
                 (g_datastore g))) s9
       = (inr (g_schedule g), s')
    /\ In (Printed ("Created schedule with id: " +:+ schedule_id first_schedule))
          l
    /\ last l
       = Some (Printed ("Created schedule with id: "
                        +:+ schedule_id (g_schedule g))).
Proof.
  intros Hrun.
  destruct (notebook_success sem _ _ _ _ _ _ Hrun)
    as (s1 & s2 & lc & env & s3 & s4 & s5 & sd & ld & u & s6 & run & s7 & s8
        & sch1 & s9
        & _ & _ & _ & _ & _ & _ & _ & _ & _ & _ & _ & H1 & H2 & ->).
  exists s8, sch1, s9. split; [exact H1 |]. split; [exact H2 |]. split.
  - right. apply in_or_app. right. apply in_or_app. right.
    apply in_or_app. right. unfold events_after_step.
    cbn [In]. auto 12.
  - unfold events_after_step.
    rewrite app_comm_cons, !app_assoc.
    rewrite last_app. reflexivity.
Qed.

(** X6.  What the compute cell prints tells how it went: "Azure Machine
    Learning Compute attached" is printed exactly when the cell returns a
    target, "found existing compute target." exactly when the lookup
    returned, "creating new compute target" exactly when the lookup raised
    [ComputeTargetException], and never both of the last two. *)
Theorem compute_cell_prints ws name s r s1 l :
  compute_cell sem ws name s = (r, s1, l) ->
  (In (Printed "Azure Machine Learning Compute attached") l
   <-> exists t, r = inr t)
  /\ (In (Printed "found existing compute target.") l
      <-> In (Called (AmlCompute_lookup ws name) None) l)
  /\ (In (Printed "creating new compute target") l
      <-> In (Called (AmlCompute_lookup ws name)
                (Some ComputeTargetException)) l)
  /\ ~ (In (Printed "found existing compute target.") l
        /\ In (Printed "creating new compute target") l).
Proof.
  intros Hrun.
  destruct (compute_cell_cases sem ws name s)
    as [(t & x & _ & Hc)
       | [(e & x & _ & Hne & Hc)
       | [(x & e & y & _ & _ & Hc)
       | [(x & t & y & e & z & _ & _ & _ & Hc)
       | (x & t & y & u & z & _ & _ & _ & Hc)]]]];
    rewrite Hc in Hrun; injection Hrun as <- <- <-; cbn;
    repeat split;
    try (intros H; decompose [or and ex] H; clear H);
    try discriminate; try contradiction; try congruence; eauto 10.
Qed.

End FullRun.


Lemma final_schedule_is_datastore_schedule_witness :
  exists g s' l,
    notebook_with Registry.sem "titanic" "blobs" registry0 = (inr g, s', l)
    /\ last l = Some (Printed ("Created schedule with id: "
                               +:+ schedule_id (g_schedule g))).
Proof.
  destruct (notebook_with Registry.sem "titanic" "blobs" registry0)
    as [[r s'] l] eqn:Hrun.
  assert (Hg : exists g, r = inr g).
  { vm_compute in Hrun. injection Hrun as <- _ _. eexists. reflexivity. }
  destruct Hg as [g ->].
  destruct (final_schedule_is_datastore_schedule Registry.sem _ _ _ _ _ _ Hrun)
    as (s8 & sch1 & s9 & _ & _ & _ & Hlast).
  exists g, s', l. split; [reflexivity | exact Hlast].
Defined.

Lemma compute_cell_prints_witness :
  exists r s1 l,
    compute_cell Registry.sem ws0 aml_compute_target registry0 = (r, s1, l)
    /\ (In (Printed "creating new compute target") l
        <-> In (Called (AmlCompute_lookup ws0 aml_compute_target)
                  (Some ComputeTargetException)) l).
Proof.
  destruct (compute_cell Registry.sem ws0 aml_compute_target registry0)
    as [[r s1] l] eqn:Hrun.
  exists r, s1, l. split; [reflexivity |].
  exact (proj1 (proj2 (proj2 (compute_cell_prints Registry.sem _ _ _ _ _ _
                                Hrun)))).
Defined.

(** ** Running the compute cell again after a failed wait *)

Section FailedWait.
Context {St : Type}.
Variable sem : forall c : Call, St -> (Exn + Resp c) * St.

(** The platform registers a target when it is asked to create it, whether
    or not the wait that follows returns. *)
Hypothesis create_registers_at_once :
  forall ws name cfg s t s1 show_output min_node_count timeout e s2,
    sem (ComputeTarget_create ws name cfg) s = (inr t, s1) ->
    sem (wait_for_completion t show_output min_node_count timeout) s1
      = (inl e, s2) ->
    exists s3, sem (AmlCompute_lookup ws name) s2 = (inr t, s3).

(** X9.  When the cell provisions a target and the wait for it raises (a
    timeout, say), the cell ends with that exception and prints no
    "attached" line.  Run again in the state that run left, the cell takes
    the target from the lookup and returns it at once: it neither provisions
    nor waits, so nothing in the second run tells whether the target has
    come up. *)
Theorem rerun_after_failed_wait ws name s e s1 l :
  compute_cell sem ws name s = (inl e, s1, l) ->
  (exists t, In (Called (wait_for_completion t true None 20) (Some e)) l) ->
  ~ In (Printed "Azure Machine Learning Compute attached") l
  /\ exists t s2,
       In (Called (wait_for_completion t true None 20) (Some e)) l
       /\ compute_cell sem ws name s1
          = (inr t, s2, [Called (AmlCompute_lookup ws name) None;
                         Printed "found existing compute target.";
                         Printed "Azure Machine Learning Compute attached"]).
Proof.
  intros Hrun [t0 Hwait].
  destruct (compute_cell_cases sem ws name s)
    as [(t & x & _ & Hc)
       | [(e' & x & _ & Hne & Hc)
       | [(x & e' & y & _ & _ & Hc)
       | [(x & t & y & e' & z & _ & Hcr & Hw & Hc)
       | (x & t & y & u & z & _ & _ & _ & Hc)]]]];
    rewrite Hc in Hrun; try discriminate Hrun;
    injection Hrun as <- <- <-; cbn in Hwait;
    try (decompose [or] Hwait; try discriminate; contradiction).
  split.
  - cbn. intros H. decompose [or] H; try discriminate; contradiction.
  - destruct (create_registers_at_once _ _ _ _ _ _ _ _ _ _ _ Hcr Hw)
      as [s3 Hl].
    exists t, s3. split; [cbn; auto 10 |].
    unfold_cells. rewrite Hl. reflexivity.
Qed.

End FailedWait.

Lemma sem_timeout_registers_at_once
    ws name cfg (s : Registry.t) t s1 show_output min_node_count timeout e s2 :
  sem_timeout (ComputeTarget_create ws name cfg) s = (inr t, s1) ->
  sem_timeout (wait_for_completion t show_output min_node_count timeout) s1
    = (inl e, s2) ->
  exists s3, sem_timeout (AmlCompute_lookup ws name) s2 = (inr t, s3).
Proof.
  cbn. intros [= <- <-] [= <- <-]. cbn.
  rewrite lookup_insert_eq. eauto.
Qed.

(** On the platform whose wait times out: the first run ends with
    [ProvisioningTimeout], the second returns the target from the lookup. *)
Lemma rerun_after_failed_wait_witness :
  exists s1 l t s2,
    compute_cell sem_timeout ws0 aml_compute_target registry0
      = (inl ProvisioningTimeout, s1, l)
    /\ compute_cell sem_timeout ws0 aml_compute_target s1
       = (inr t, s2, [Called (AmlCompute_lookup ws0 aml_compute_target) None;
                      Printed "found existing compute target.";
                      Printed "Azure Machine Learning Compute attached"]).
Proof.
  destruct (compute_cell sem_timeout ws0 aml_compute_target registry0)
    as [[r s1] l] eqn:Hrun.
  assert (Hr : r = inl ProvisioningTimeout
               /\ In (Called (wait_for_completion
                                {| ct_name := "cpu-cluster";
                                   ct_sizing := provisioning_config |}
                                true None 20) (Some ProvisioningTimeout)) l).
  { vm_compute in Hrun. injection Hrun as <- _ <-. split; [reflexivity |].
    cbn. auto 10. }
  destruct Hr as [-> Hin].
  destruct (rerun_after_failed_wait sem_timeout sem_timeout_registers_at_once
              ws0 aml_compute_target registry0 ProvisioningTimeout s1 l Hrun
              (ex_intro
                 (fun t => In (Called (wait_for_completion t true None 20)
                                 (Some ProvisioningTimeout)) l) _ Hin))
    as (_ & t & s2 & _ & H2).
  exists s1, l, t, s2. split; [reflexivity | exact H2].
Defined.
